(** * Cart mutation reconciliation of the Hydrogen demo store

    A shallow embedding of the cart routes of the storefront template:
    - the [CartLinesAdd] route (action, [linesAddResponse],
      [instrumentEvent], [diffLines], the [CartLinesAddForm] component and
      the hooks [useCartLinesAdd], [useOptimisticCartLinesAdding]);
    - the [cart] route (the action dispatching on [cartAction]).

    JavaScript values are modelled by their TypeScript types: an optional
    field or a nullable value is an [option], an array is a [list], a
    GraphQL [Int] is a [Z], a thrown exception is the [Thrown] outcome of
    the request monad [M]. *)

From Stdlib Require Import ZArith Ascii String List Bool Lia.
From stdpp Require Import base list strings gmap.
Import ListNotations.

Local Open Scope string_scope.
Local Open Scope Z_scope.

(** ** The array diff of the [fast-array-diff] package *)

Module FastArrayDiff.

(** [DiffData<T, U>]: the two partitions [diff] returns. *)
Record DiffData (T U : Type) : Type := mkDiffData {
  removed : list T;
  added : list U
}.
Arguments mkDiffData {T U} _ _.
Arguments removed {T U} _.
Arguments added {T U} _.

(** An edit script from [a] to [b] under [compareFunc]: every element of
    [a] is either kept (paired with an element of [b] it compares equal
    to, in order) or removed, every element of [b] is either kept or
    added.  [Script a b r d] holds when the script removes [r] and adds
    [d]. *)
Inductive Script {T U : Type} (compareFunc : T → U → bool) :
    list T → list U → list T → list U → Prop :=
| script_end : Script compareFunc [] [] [] []
| script_same x y a b r d :
    compareFunc x y = true →
    Script compareFunc a b r d →
    Script compareFunc (x :: a) (y :: b) r d
| script_remove x a b r d :
    Script compareFunc a b r d →
    Script compareFunc (x :: a) b (x :: r) d
| script_add y a b r d :
    Script compareFunc a b r d →
    Script compareFunc a (y :: b) r (y :: d).

(** The signature of [diff(a, b, compareFunc)]. *)
Definition diff_t : Type :=
  ∀ T U : Type, list T → list U → (T → U → bool) → DiffData T U.

(** Modelled from the spec: the package [fast-array-diff] is a dependency
    of the routes and its code is not part of the repository.  The spec
    describes it as a sequence diff (LCS-style edit distance) between the
    two sequences under the given predicate: the result is an edit script,
    and no edit script adds fewer elements (so the kept pairs form a
    longest common subsequence). *)
Definition LcsDiff (diff : diff_t) : Prop :=
  ∀ (T U : Type) (a : list T) (b : list U) (compareFunc : T → U → bool),
    Script compareFunc a b
      (removed (diff T U a b compareFunc)) (added (diff T U a b compareFunc))
    ∧ ∀ r d, Script compareFunc a b r d →
        (length (added (diff T U a b compareFunc)) ≤ length d)%nat.

(** Modelled from the spec: one executable diff meeting [LcsDiff], by the
    textbook recursion on the two sequences (keep the heads when they
    compare equal, otherwise the better of removing the head of [a] and
    adding the head of [b], removal first on a tie). *)
Fixpoint lcs {T U : Type} (compareFunc : T → U → bool) (a : list T)
    : list U → DiffData T U :=
  match a with
  | [] => fun b => mkDiffData [] b
  | x :: a' =>
      fix lcs_row (b : list U) : DiffData T U :=
        match b with
        | [] => mkDiffData (x :: a') []
        | y :: b' =>
            if compareFunc x y then lcs compareFunc a' b'
            else
              let rm := lcs compareFunc a' (y :: b') in
              let ad := lcs_row b' in
              if (length (added rm) <=? S (length (added ad)))%nat
              then mkDiffData (x :: removed rm) (added rm)
              else mkDiffData (removed ad) (y :: added ad)
        end
  end.

Definition diff : diff_t := fun T U a b compareFunc => lcs compareFunc a b.

End FastArrayDiff.

Import FastArrayDiff.

(** ** Storefront API types *)

(** [CartLineInput] *)
Record CartLineInput : Type := mkCartLineInput {
  input_merchandiseId : string;
  input_quantity : option Z;
  input_sellingPlanId : option string;
  input_attributes : list (string * string)
}.

Record Merchandise : Type := mkMerchandise { merchandise_id : string }.

(** [CartLine], with the fields [LINES_CART_FRAGMENT] selects. *)
Record CartLine : Type := mkCartLine {
  line_id : string;
  line_quantity : Z;
  line_merchandise : Merchandise
}.

Record CartLineEdge : Type := mkEdge { node : CartLine }.

(** [Cart['lines']].  [linesAddResponse] passes an empty array for the
    lines of a missing previous cart, an object with no [edges]. *)
Record CartLineConnection : Type := mkConnection {
  edges : option (list CartLineEdge)
}.

Record Cart : Type := mkCart {
  cart_id : string;
  cart_totalQuantity : Z;
  cart_lines : option CartLineConnection
}.

(** [PartialDeep<CartLine>]: every field optional. *)
Record PartialMerchandise : Type := mkPartialMerchandise {
  partial_merchandise_id : option string
}.

Record PartialCartLine : Type := mkPartialCartLine {
  partial_id : option string;
  partial_quantity : option Z;
  partial_merchandise : option PartialMerchandise
}.

(** [PartialDeep<UserError>] *)
Record UserError : Type := mkUserError {
  error_code : option string;
  error_field : option (list string);
  error_message : option string
}.

(** ** The line diff of the CartLinesAdd route *)

(** [DiffingLine] *)
Record DiffingLine : Type := mkDiffingLine {
  id : string;
  quantity : Z;
  merchandiseId : string
}.

(** [DiffLinesProps] *)
Record DiffLinesProps : Type := mkDiffLinesProps {
  addingLines : list CartLineInput;
  prevLines : option CartLineConnection;
  currentLines : option CartLineConnection
}.

Record DiffLinesResult : Type := mkDiffLinesResult {
  linesAdded : list DiffingLine;
  linesNotAdded : list CartLineInput
}.

(** [lines?.edges?.map(({node: {id, quantity, merchandise}}) => ...) || []] *)
Definition diffingLines (lines : option CartLineConnection) : list DiffingLine :=
  match lines with
  | Some {| edges := Some es |} =>
      map (fun e => mkDiffingLine (line_id (node e)) (line_quantity (node e))
                      (merchandise_id (line_merchandise (node e)))) es
  | _ => []
  end.

(** The lines comparison function of [diffLines]. *)
Definition comparer (prevLine line : DiffingLine) : bool :=
  String.eqb (id prevLine) (id line)
  && String.eqb (merchandiseId prevLine) (merchandiseId line)
  && (quantity line <=? quantity prevLine).

(** [Array.prototype.includes] on strings. *)
Definition includes (xs : list string) (x : string) : bool :=
  existsb (String.eqb x) xs.

Definition diffLines (diff : diff_t) (props : DiffLinesProps) : DiffLinesResult :=
  let prev := diffingLines (prevLines props) in
  let next := diffingLines (currentLines props) in
  let linesAdded := added (diff _ _ prev next comparer) in
  let linesAddedIds := map merchandiseId linesAdded in
  let linesNotAdded :=
    List.filter (fun l => negb (includes linesAddedIds (input_merchandiseId l)))
      (addingLines props) in
  mkDiffLinesResult linesAdded linesNotAdded.

(** For the statements below: a line of the new snapshot that no line of
    the old one compares equal to. *)
Definition unmatched (prev : list DiffingLine) (line : DiffingLine) : bool :=
  negb (existsb (fun prevLine => comparer prevLine line) prev).

(** The lines two snapshots share (by line id) come in the same order. *)
Definition same_order (prev next : list DiffingLine) : Prop :=
  filter (.∈ map id next) (map id prev) = filter (.∈ map id prev) (map id next).

(** ** Requests, sessions and the Storefront API client *)

(** [FormDataEntryValue = string | File] *)
Inductive FormDataEntryValue : Type :=
| FormString (s : string)
| FormFile (name : string).

(** [FormData]: the entries in submission order. *)
Definition FormData : Type := list (string * FormDataEntryValue).

(** [formData.get(name)]: the first entry of that name, or [null]. *)
Definition FormData_get (name : string) (formData : FormData)
    : option FormDataEntryValue :=
  snd <$> List.find (fun e => String.eqb (fst e) name) formData.

(** [formData.getAll(name)] *)
Definition FormData_getAll (name : string) (formData : FormData)
    : list FormDataEntryValue :=
  map snd (List.filter (fun e => String.eqb (fst e) name) formData).

(** Truthiness of a string: every string but the empty one. *)
Definition truthy (s : string) : bool := negb (String.eqb s "").

(** Truthiness of [formData.get(name)]: [null] is falsy, a [File] truthy. *)
Definition truthy_entry (v : option FormDataEntryValue) : bool :=
  match v with
  | None => false
  | Some (FormString s) => truthy s
  | Some (FormFile _) => true
  end.

(** Truthiness of a session value ([session.get] gives a string or
    [undefined]). *)
Definition truthy_value (v : option string) : bool :=
  match v with
  | None => false
  | Some s => truthy s
  end.

(** [String(value)] on a form entry. *)
Definition String_ (v : FormDataEntryValue) : string :=
  match v with
  | FormString s => s
  | FormFile _ => "[object File]"
  end.

(** [CartBuyerIdentityInput] *)
Record CartBuyerIdentityInput : Type := mkBuyerIdentity {
  countryCode : option string;
  customerAccessToken : option string;
  email : option string;
  phone : option string
}.

(** [CartInput] *)
Record CartInput : Type := mkCartInput {
  input_lines : option (list CartLineInput);
  input_buyerIdentity : option CartBuyerIdentityInput
}.

(** [CartLineUpdateInput] *)
Record CartLineUpdateInput : Type := mkCartLineUpdateInput {
  update_id : string;
  update_merchandiseId : option string;
  update_quantity : option Z
}.

(** The operations the routes send to the Storefront API, each with its
    variables.  The cart route reads its [cartId] from the session and
    forwards it as it is, hence the optional ids. *)
Inductive ApiCall : Type :=
| CART_LINES_QUERY (cartId : string)
| CREATE_CART_MUTATION (input : CartInput)
| ADD_LINES_MUTATION (cartId : string) (lines : list CartLineInput)
| REMOVE_LINES_MUTATION (cartId : option string) (lineIds : list string)
| UPDATE_LINES_MUTATION (cartId : option string) (lines : list CartLineUpdateInput)
| DISCOUNT_CODES_UPDATE_MUTATION (cartId : string) (discountCodes : list string)
| BUYER_IDENTITY_UPDATE_MUTATION (cartId : string)
    (buyerIdentity : CartBuyerIdentityInput).

(** The selection of a cart operation: [{cart, errors: userErrors}]. *)
Record CartPayload : Type := mkPayload {
  cart : option Cart;
  errors : option (list UserError)
}.

(** The storefront client of the context.  The answer of the remote API to
    a call may depend on the calls that came before; [None] is a response
    without the selected field. *)
Record Storefront : Type := mkStorefront {
  respond : list ApiCall → ApiCall → option CartPayload
}.

(** [HydrogenContext] (the session lives in the [World]). *)
Record HydrogenContext : Type := mkContext {
  storefront : option Storefront
}.

Record Request : Type := mkRequest { request_formData : FormData }.

(** [Headers] *)
Abbreviation Headers := (gmap string string).

(** What the platform and the modules outside the routes provide. *)
Record Platform : Type := mkPlatform {
  (** [JSON.parse(s) as CartLineInput[]]; [None] is a [SyntaxError] *)
  JSON_parse_lines : string → option (list CartLineInput);
  (** [JSON.parse(s) as Cart['id'][]] *)
  JSON_parse_ids : string → option (list string);
  (** [JSON.parse(s) as CartLineUpdateInput[]] *)
  JSON_parse_updateLines : string → option (list CartLineUpdateInput);
  (** [JSON.parse(s) as CartBuyerIdentityInput] *)
  JSON_parse_buyerIdentity : string → option CartBuyerIdentityInput;
  (** [JSON.parse(s)] read as [PartialDeep<CartLine>[]] *)
  JSON_parse_cartLines : string → option (list PartialCartLine);
  (** [isLocalPath] of [~/lib/utils] *)
  isLocalPath : string → bool;
  (** [usePrefixPathWithLocale] of [~/lib/utils] *)
  usePrefixPathWithLocale : string → string;
  (** [session.commit()]: the cookie for the session's content *)
  commit : gmap string string → string;
  (** [crypto.randomUUID()]: the n-th identifier drawn *)
  uuid : nat → string
}.

(** The state a request runs in: the session store, the log of the calls
    sent to the Storefront API, and the number of UUIDs drawn. *)
Record World : Type := mkWorld {
  session : gmap string string;
  network : list ApiCall;
  drawn : nat
}.

Inductive Exception : Type :=
| InvariantFailed (message : string)   (* tiny-invariant *)
| SyntaxError                          (* JSON.parse *)
| TypeError.                           (* a property of null or undefined *)

Inductive Outcome (A : Type) : Type :=
| Returned (a : A)
| Thrown (e : Exception).
Arguments Returned {A} _.
Arguments Thrown {A} _.

(** The request monad: state passing over the [World], with exceptions.
    The state reached when an exception is thrown is kept: what was sent
    to the API before stays sent. *)
Definition M (A : Type) : Type := World → Outcome A * World.

#[export] Instance M_ret : MRet M := fun A a w => (Returned a, w).
#[export] Instance M_bind : MBind M := fun A B f m w =>
  match m w with
  | (Returned a, w') => f a w'
  | (Thrown e, w') => (Thrown e, w')
  end.

Definition throw {A : Type} (e : Exception) : M A := fun w => (Thrown e, w).

(** [invariant(condition, message)] *)
Definition invariant (condition : bool) (message : string) : M unit :=
  if condition then mret tt else throw (InvariantFailed message).

Definition session_get (key : string) : M (option string) :=
  fun w => (Returned (session w !! key), w).

Definition session_set (key value : string) : M unit :=
  fun w => (Returned tt,
            mkWorld (<[key := value]> (session w)) (network w) (drawn w)).

Definition session_commit (P : Platform) : M string :=
  fun w => (Returned (commit P (session w)), w).

Definition randomUUID (P : Platform) : M string :=
  fun w => (Returned (uuid P (drawn w)),
            mkWorld (session w) (network w) (S (drawn w))).

(** [storefront.query] and [storefront.mutate]: one call on the network. *)
Definition storefront_request (sf : Storefront) (call : ApiCall)
    : M (option CartPayload) :=
  fun w => (Returned (respond sf (network w) call),
            mkWorld (session w) (network w ++ [call]) (drawn w)).

(** [JSON.parse] under a cast. *)
Definition JSON_parse {A : Type} (parse : string → option A) (s : string) : M A :=
  match parse s with
  | Some v => mret v
  | None => throw SyntaxError
  end.

(** [graphqlErrors?.length] as a condition. *)
Definition has_errors (es : option (list UserError)) : bool :=
  match es with
  | Some (_ :: _) => true
  | _ => false
  end.

(** [LinesAddEvent], with the payload [instrumentEvent] builds. *)
Record LinesAddEvent : Type := mkEvent {
  event_type : string;
  event_id : string;
  payload_linesAdded : list DiffingLine
}.

(** The JSON bodies of the two routes. *)
Inductive ResponseBody : Type :=
| ErrorsBody (errors : option (list UserError))
| EventBody (event : LinesAddEvent) (errors : list UserError)
| CartBody (cart : option Cart) (errors : option (list UserError)).

(** [json(body, {status, headers})] and [redirect(url, {headers})]. *)
Inductive Response : Type :=
| json (body : ResponseBody) (status : Z) (headers : Headers)
| redirect (url : string) (headers : Headers).

(** The headers a response carries. *)
Definition response_headers (response : Response) : Headers :=
  match response with
  | json _ _ headers => headers
  | redirect _ headers => headers
  end.

(** [formData.get('redirectTo') ?? null], kept when it is a string and a
    local path. *)
Definition local_redirect (P : Platform) (formData : FormData) : option string :=
  match FormData_get "redirectTo" formData with
  | Some (FormString redirectTo) =>
      if isLocalPath P redirectTo then Some redirectTo else None
  | _ => None
  end.

(** [s.split('/').pop()]: what follows the last slash. *)
Fixpoint split_pop (s : string) (segment : string) : string :=
  match s with
  | EmptyString => segment
  | String c s' =>
      if Ascii.eqb c "/"%char then split_pop s' EmptyString
      else split_pop s' (segment ++ String c EmptyString)
  end.

(** ** The CartLinesAdd route *)

Module CartLinesAdd.

Definition ACTION_PATH : string := "/cart/CartLinesAdd".

Definition getCartLines (cartId : string) (context : HydrogenContext) : M Cart :=
  match storefront context with
  | None =>
      throw (InvariantFailed "missing storefront client in cart create mutation")
  | Some sf =>
      r ← storefront_request sf (CART_LINES_QUERY cartId);
      match r ≫= cart with
      | None => throw (InvariantFailed "No data returned from cart lines query")
      | Some c => mret c
      end
  end.

Definition cartCreate (input : CartInput) (context : HydrogenContext)
    : M CartPayload :=
  match storefront context with
  | None =>
      throw (InvariantFailed "missing storefront client in cartCreate mutation")
  | Some sf =>
      r ← storefront_request sf (CREATE_CART_MUTATION input);
      match r with
      | None =>
          throw (InvariantFailed "No data returned from cartCreate mutation")
      | Some cartCreate => mret cartCreate
      end
  end.

Definition cartLinesAdd (cartId : string) (lines : list CartLineInput)
    (context : HydrogenContext) : M CartPayload :=
  match storefront context with
  | None =>
      throw (InvariantFailed "missing storefront client in cartLinesAdd mutation")
  | Some sf =>
      r ← storefront_request sf (ADD_LINES_MUTATION cartId lines);
      match r with
      | None =>
          throw (InvariantFailed "No data returned from cartLinesAdd mutation")
      | Some cartLinesAdd => mret cartLinesAdd
      end
  end.

(** [instrumentEvent]: the [lines_add] event and one [LINE_NOT_ADDED]
    error per requested line that was not added. *)
Definition instrumentEvent (P : Platform) (diff : diff_t)
    (props : DiffLinesProps) : M (LinesAddEvent * list UserError) :=
  let r := diffLines diff props in
  eventId ← randomUUID P;
  let event := mkEvent "lines_add" eventId (linesAdded r) in
  let errors :=
    map (fun line =>
           mkUserError (Some "LINE_NOT_ADDED") None
             (Some (split_pop (input_merchandiseId line) EmptyString)))
        (linesNotAdded r) in
  mret (event, errors).

(** [linesAddResponse]; [cart] is the cart of the mutation's payload. *)
Definition linesAddResponse (P : Platform) (diff : diff_t)
    (prevCart : option Cart) (cart : option Cart)
    (lines : list CartLineInput) (formData : FormData) (headers : Headers)
    : M Response :=
  match local_redirect P formData with
  | Some redirectTo => mret (redirect redirectTo headers)
  | None =>
      (* (prevCart?.lines || []): an array has no edges *)
      let prevLines :=
        match prevCart ≫= cart_lines with
        | Some ls => Some ls
        | None => Some (mkConnection None)
        end in
      match cart with
      | None => throw TypeError
      | Some c =>
          r ← instrumentEvent P diff
                (mkDiffLinesProps lines prevLines (cart_lines c));
          mret (json (EventBody r.1 r.2) 200 headers)
      end
  end.

(** The route's action: cart create (with lines) and lines add. *)
Definition action (P : Platform) (diff : diff_t)
    (request : Request) (context : HydrogenContext) : M Response :=
  let headers : Headers := ∅ in
  let formData := request_formData request in
  cartId ← session_get "cartId";
  lines ← match FormData_get "lines" formData with
          | Some v =>
              if truthy_entry (Some v)
              then JSON_parse (JSON_parse_lines P) (String_ v)
              else mret []
          | None => mret []
          end;
  invariant (negb (length lines =? 0)%nat) "No lines to add";;
  if negb (truthy_value cartId) then
    (* Flow A: no previous cart, create and add line(s) *)
    r ← cartCreate (mkCartInput (Some lines) None) context;
    if has_errors (errors r) then mret (json (ErrorsBody (errors r)) 200 ∅)
    else
      match cart r with
      | None => throw TypeError
      | Some c =>
          session_set "cartId" (cart_id c);;
          cookie ← session_commit P;
          let headers := <["Set-Cookie" := cookie]> headers in
          linesAddResponse P diff None (Some c) lines formData headers
      end
  else
    (* Flow B: add line(s) to the existing cart *)
    let cartId := default "" cartId in
    prevCart ← getCartLines cartId context;
    r ← cartLinesAdd cartId lines context;
    if has_errors (errors r) then mret (json (ErrorsBody (errors r)) 200 ∅)
    else linesAddResponse P diff (Some prevCart) (cart r) lines formData headers.

(** *** The form, the hooks *)

(** [fetcher.data]: the JSON body of the action's response. *)
Record FetcherData : Type := mkFetcherData {
  data_event : option LinesAddEvent;
  data_errors : option (list UserError)
}.

Record Submission : Type := mkSubmission {
  submission_action : string;
  submission_formData : option FormData
}.

Record Fetcher : Type := mkFetcher {
  fetcher_submission : option Submission;
  fetcher_data : option FetcherData
}.

Section Consumers.
(** The functions a caller may pass as [onSuccess]. *)
Context {Callback : Type}.

(** A mounted consumer across its renders: the [lastEventId] ref, and
    the calls of [onSuccess] made so far, oldest first. *)
Record Consumer : Type := mkConsumer {
  lastEventId : option string;
  invoked : list (Callback * LinesAddEvent)
}.

(** On mount the ref is [undefined] and nothing was called. *)
Definition mounted : Consumer := mkConsumer None [].

(** The effect of [CartLinesAddForm], run with the [onSuccess] prop and
    the fetcher of one render. *)
Definition CartLinesAddForm_effect (onSuccess : option Callback)
    (fetcher : Fetcher) (c : Consumer) : Consumer :=
  match fetcher_data fetcher ≫= data_event with
  | None => c
  | Some event =>
      let eventId := event_id event in
      if negb (truthy eventId) then c
      else if bool_decide (Some eventId = lastEventId c) then c
      else
        mkConsumer (Some eventId)
          (invoked c ++ match onSuccess with
                        | Some f => [(f, event)]
                        | None => []
                        end)
  end.

(** The effect of [useCartLinesAdd]. *)
Definition useCartLinesAdd_effect (onSuccess : Callback)
    (fetcher : Fetcher) (c : Consumer) : Consumer :=
  match fetcher_data fetcher ≫= data_event with
  | None => c
  | Some event =>
      if bool_decide (lastEventId c = Some (event_id event)) then c
      else mkConsumer (Some (event_id event)) (invoked c ++ [(onSuccess, event)])
  end.

(** A consumer through a sequence of renders. *)
Definition CartLinesAddForm_renders
    (renders : list (option Callback * Fetcher)) (c : Consumer) : Consumer :=
  fold_left (fun c r => CartLinesAddForm_effect r.1 r.2 c) renders c.

Definition useCartLinesAdd_renders
    (renders : list (Callback * Fetcher)) (c : Consumer) : Consumer :=
  fold_left (fun c r => useCartLinesAdd_effect r.1 r.2 c) renders c.
End Consumers.

(** A fetcher whose data holds [event]. *)
Definition showing (event : LinesAddEvent) : Fetcher :=
  mkFetcher None (Some (mkFetcherData (Some event) None)).

(** Renders that show each event in turn, the event of [(f, event, n)] on
    [n + 1] renders in a row with [f] as [onSuccess]. *)
Definition form_renders_of {Callback : Type}
    (shown : list (Callback * LinesAddEvent * nat))
    : list (option Callback * Fetcher) :=
  flat_map (fun u => replicate (S u.2) (Some u.1.1, showing u.1.2)) shown.

Definition hook_renders_of {Callback : Type}
    (shown : list (Callback * LinesAddEvent * nat))
    : list (Callback * Fetcher) :=
  flat_map (fun u => replicate (S u.2) (u.1.1, showing u.1.2)) shown.

(** [useCartLinesAddingFetcher] over the fetchers [useFetchers] lists. *)
Definition useCartLinesAddingFetcher (P : Platform) (fetchers : list Fetcher)
    : option Fetcher :=
  let localizedActionPath := usePrefixPathWithLocale P ACTION_PATH in
  List.find
    (fun fetcher =>
       match fetcher_submission fetcher with
       | Some s => String.eqb (submission_action s) localizedActionPath
       | None => false
       end)
    fetchers.

(** [OptimisticLinesAddingReturnType] *)
Record OptimisticLinesAddingReturnType : Type := mkOptimistic {
  optimisticLines : list PartialCartLine;
  optimisticLinesNew : list PartialCartLine
}.

(** The lines comparison function of [useOptimisticCartLinesAdding]. *)
Definition optimistic_comparer (prevLine line : PartialCartLine) : bool :=
  match partial_merchandise prevLine ≫= partial_merchandise_id with
  | None => false
  | Some prevId =>
      match partial_merchandise line ≫= partial_merchandise_id with
      | None => false
      | Some lineId => String.eqb prevId lineId
      end
  end.

(** [fetcher?.submission?.formData?.get('optimisticLines')] on the
    fetcher that is adding lines. *)
Definition optimisticLinesStr (P : Platform) (fetchers : list Fetcher)
    : option FormDataEntryValue :=
  formData ← (submission ← (useCartLinesAddingFetcher P fetchers
                             ≫= fetcher_submission);
              submission_formData submission);
  FormData_get "optimisticLines" formData.

(** [useOptimisticCartLinesAdding(lines)]; [lines] is [None] when the
    argument is not an array. *)
Definition useOptimisticCartLinesAdding (P : Platform) (diff : diff_t)
    (fetchers : list Fetcher) (lines : option (list PartialCartLine))
    : Outcome OptimisticLinesAddingReturnType :=
  match optimisticLinesStr P fetchers with
  | Some (FormString str) =>
      if truthy str then
        match JSON_parse_cartLines P str with
        | None => Thrown SyntaxError
        | Some optimisticLines =>
            let result := mkOptimistic optimisticLines [] in
            (* not adding optimistic lines *)
            if (length optimisticLines =? 0)%nat then Returned result
            else
              match lines with
              | Some (l :: ls) =>
                  Returned
                    (mkOptimistic optimisticLines
                       (added (diff _ _ (l :: ls) optimisticLines
                                 optimistic_comparer)))
              | _ =>
                  (* no existing lines, all adding are new *)
                  Returned (mkOptimistic optimisticLines optimisticLines)
              end
        end
      else Returned (mkOptimistic [] [])
  | _ => Returned (mkOptimistic [] [])
  end.

End CartLinesAdd.

(** ** The cart route *)

Module CartRoute.

(** [CartAction] *)
Inductive CartAction : Type :=
| ADD_TO_CART
| REMOVE_FROM_CART
| UPDATE_CART
| UPDATE_DISCOUNT
| UPDATE_BUYER_IDENTITY.

(** The case of the [switch] a [cartAction] field selects; [None] is the
    [default] case. *)
Definition switch_case (cartAction : FormDataEntryValue) : option CartAction :=
  match cartAction with
  | FormString s =>
      if String.eqb s "ADD_TO_CART" then Some ADD_TO_CART
      else if String.eqb s "REMOVE_FROM_CART" then Some REMOVE_FROM_CART
      else if String.eqb s "UPDATE_CART" then Some UPDATE_CART
      else if String.eqb s "UPDATE_DISCOUNT" then Some UPDATE_DISCOUNT
      else if String.eqb s "UPDATE_BUYER_IDENTITY" then Some UPDATE_BUYER_IDENTITY
      else None
  | FormFile _ => None
  end.

(** Modelled from the spec: the functions of [~/data] the cart route calls
    ([cartCreate], [cartAdd], [cartRemove], [cartUpdate],
    [cartDiscountCodesUpdate], [cartUpdateBuyerIdentity]) are not among the
    sources.  The spec has each action map to one dedicated mutation sent
    through the commerce API client, a thin wrapper returning [{cart,
    errors}]; they are modelled like the wrappers of the CartLinesAdd
    route: one request with the arguments as variables, and an invariant
    on the selected field. *)
Definition mutation (storefront : option Storefront) (call : ApiCall)
    : M CartPayload :=
  match storefront with
  | None => throw TypeError
  | Some sf =>
      r ← storefront_request sf call;
      match r with
      | None => throw (InvariantFailed "No data returned from mutation")
      | Some payload => mret payload
      end
  end.

Definition cartCreate (input : CartInput) (storefront : option Storefront) :=
  mutation storefront (CREATE_CART_MUTATION input).
Definition cartAdd (cartId : string) (lines : list CartLineInput)
    (storefront : option Storefront) :=
  mutation storefront (ADD_LINES_MUTATION cartId lines).
Definition cartRemove (cartId : option string) (lineIds : list string)
    (storefront : option Storefront) :=
  mutation storefront (REMOVE_LINES_MUTATION cartId lineIds).
Definition cartUpdate (cartId : option string) (lines : list CartLineUpdateInput)
    (storefront : option Storefront) :=
  mutation storefront (UPDATE_LINES_MUTATION cartId lines).
Definition cartDiscountCodesUpdate (cartId : string) (discountCodes : list string)
    (storefront : option Storefront) :=
  mutation storefront (DISCOUNT_CODES_UPDATE_MUTATION cartId discountCodes).
Definition cartUpdateBuyerIdentity (cartId : string)
    (buyerIdentity : CartBuyerIdentityInput) (storefront : option Storefront) :=
  mutation storefront (BUYER_IDENTITY_UPDATE_MUTATION cartId buyerIdentity).

(** A JSON form field: [formData.get(name) ? JSON.parse(String(...)) : empty] *)
Definition json_field {A : Type} (parse : string → option A) (empty : A)
    (name : string) (formData : FormData) : M A :=
  match FormData_get name formData with
  | Some v =>
      if truthy_entry (Some v) then JSON_parse parse (String_ v) else mret empty
  | None => mret empty
  end.

(** [formData.get('countryCode') ? formData.get('countryCode') : null],
    cast to a country code (a string). *)
Definition form_countryCode (formData : FormData) : option string :=
  match FormData_get "countryCode" formData with
  | Some v => if truthy_entry (Some v) then Some (String_ v) else None
  | None => None
  end.

(** [countryCode ? {lines, buyerIdentity: {countryCode}} : {lines}] *)
Definition create_input (countryCode : option string)
    (lines : list CartLineInput) : CartInput :=
  match countryCode with
  | Some code =>
      mkCartInput (Some lines) (Some (mkBuyerIdentity (Some code) None None None))
  | None => mkCartInput (Some lines) None
  end.

(** [session.set('cartId', result.cart.id)] and the [Set-Cookie] header. *)
Definition persist_cart (P : Platform) (result : CartPayload) (headers : Headers)
    : M Headers :=
  match cart result with
  | None => throw TypeError
  | Some c =>
      session_set "cartId" (cart_id c);;
      cookie ← session_commit P;
      mret (<["Set-Cookie" := cookie]> headers)
  end.

(** The route's action.  The [switch] computes [result] and may set
    headers. *)
Definition action (P : Platform) (request : Request) (context : HydrogenContext)
    : M Response :=
  let storefront := storefront context in
  let headers : Headers := ∅ in
  let formData := request_formData request in
  cartId ← session_get "cartId";
  customerAccessToken ← session_get "customerAccessToken";
  let cartAction := FormData_get "cartAction" formData in
  invariant (truthy_entry cartAction) "No cartAction defined";;
  let countryCode := form_countryCode formData in
  let status := 200 in
  '(result, headers) ←
    match cartAction ≫= switch_case with
    | Some ADD_TO_CART =>
        lines ← json_field (JSON_parse_lines P) [] "lines" formData;
        invariant (negb (length lines =? 0)%nat) "No lines to add";;
        if negb (truthy_value cartId) then
          (* Flow A: no previous cart, create and add line(s) *)
          result ← cartCreate (create_input countryCode lines) storefront;
          headers ← persist_cart P result headers;
          mret (result, headers)
        else
          (* Flow B: add line(s) to the existing cart *)
          result ← cartAdd (default "" cartId) lines storefront;
          mret (result, headers)
    | Some REMOVE_FROM_CART =>
        lineIds ← json_field (JSON_parse_ids P) [] "linesIds" formData;
        invariant (negb (length lineIds =? 0)%nat) "No lines to remove";;
        result ← cartRemove cartId lineIds storefront;
        mret (result, headers)
    | Some UPDATE_CART =>
        updateLines ← json_field (JSON_parse_updateLines P) [] "lines" formData;
        invariant (negb (length updateLines =? 0)%nat) "No lines to update";;
        result ← cartUpdate cartId updateLines storefront;
        mret (result, headers)
    | Some UPDATE_DISCOUNT =>
        invariant (truthy_value cartId) "Missing cartId";;
        let formDiscountCodes := FormData_getAll "discountCodes" formData in
        let discountCodes := map String_ formDiscountCodes in
        result ← cartDiscountCodesUpdate (default "" cartId) discountCodes storefront;
        mret (result, headers)
    | Some UPDATE_BUYER_IDENTITY =>
        buyerIdentity ← json_field (JSON_parse_buyerIdentity P)
                          (mkBuyerIdentity None None None None)
                          "buyerIdentity" formData;
        result ← (if truthy_value cartId
                  then cartUpdateBuyerIdentity (default "" cartId) buyerIdentity
                         storefront
                  else cartCreate (mkCartInput None (Some buyerIdentity))
                         storefront);
        headers ← persist_cart P result headers;
        mret (result, headers)
    | None =>
        throw (InvariantFailed
                 (from_option String_ "" cartAction ++ " cart action is not defined"))
    end;
  match local_redirect P formData with
  | Some redirectTo =>
      mret (json (CartBody (cart result) (errors result)) 303
              (<["Location" := redirectTo]> headers))
  | None =>
      mret (json (CartBody (cart result) (errors result)) status headers)
  end.

End CartRoute.

(** ** The form and the hooks of the CartLinesAdd route *)

Module CartLinesAddHooks.

(** [JSON.stringify] on the two arrays the form carries. *)
Record Stringify : Type := mkStringify {
  JSON_stringify_lines : list CartLineInput → string;
  JSON_stringify_cartLines : list PartialCartLine → string
}.

(** [formData.set(name, value)]: the first entry of that name is replaced
    and the others dropped; without one, the entry is appended. *)
Fixpoint FormData_set (name : string) (value : FormDataEntryValue)
    (formData : FormData) : FormData :=
  match formData with
  | [] => [(name, value)]
  | e :: rest =>
      if String.eqb (fst e) name
      then (name, value)
             :: List.filter (fun e' => negb (String.eqb (fst e') name)) rest
      else e :: FormData_set name value rest
  end.

(** The form [CartLinesAddForm] renders: where it posts, and its hidden
    inputs in document order (what [children] render comes after them). *)
Record RenderedForm : Type := mkForm {
  form_action : string;
  form_method : string;
  form_hidden : FormData
}.

(** [CartLinesAddForm].  A prop that is not an array is [None] (a missing
    prop takes its default, the empty array); [None] as a result is the
    [null] the component returns. *)
Definition CartLinesAddForm (P : Platform) (S : Stringify)
    (lines : option (list CartLineInput))
    (optimisticLines : option (list PartialCartLine))
    (isHydrated : bool) (pathname search : string) : option RenderedForm :=
  let localizedActionPath := usePrefixPathWithLocale P CartLinesAdd.ACTION_PATH in
  let localizedCurrentPath := usePrefixPathWithLocale P (pathname ++ search) in
  match lines with
  | Some (l :: ls) =>
      Some (mkForm localizedActionPath "post"
              ([("lines", FormString (JSON_stringify_lines S (l :: ls)))]
               ++ match optimisticLines with
                  | Some ol =>
                      [("optimisticLines",
                        FormString (JSON_stringify_cartLines S ol))]
                  | None => []
                  end
               ++ (if isHydrated then []
                   else [("redirectTo", FormString localizedCurrentPath)]))%list)
  | _ => None
  end.

(** The [cartLinesAdd] callback of [useCartLinesAdd]: the submission it
    hands to [fetcher.submit]. *)
Definition cartLinesAdd (P : Platform) (S : Stringify)
    (lines : option (list CartLineInput))
    (optimisticLines : option (list PartialCartLine)) : CartLinesAdd.Submission :=
  let localizedActionPath := usePrefixPathWithLocale P CartLinesAdd.ACTION_PATH in
  let form : FormData := [] in
  let form :=
    match lines with
    | Some ls => FormData_set "lines" (FormString (JSON_stringify_lines S ls)) form
    | None => form
    end in
  let form :=
    match optimisticLines with
    | Some ol =>
        FormData_set "optimisticLines"
          (FormString (JSON_stringify_cartLines S ol)) form
    | None => form
    end in
  CartLinesAdd.mkSubmission localizedActionPath (Some form).

(** [useCartLinesAdding]: the lines of the submission in flight; a field
    that does not parse leaves the empty array (the [catch] is a no-op). *)
Definition useCartLinesAdding (P : Platform) (fetchers : list CartLinesAdd.Fetcher)
    : list CartLineInput * option CartLinesAdd.Fetcher :=
  let fetcher := CartLinesAdd.useCartLinesAddingFetcher P fetchers in
  let linesStr : option FormDataEntryValue :=
    formData ← (submission ← (fetcher ≫= CartLinesAdd.fetcher_submission);
                CartLinesAdd.submission_formData submission);
    FormData_get "lines" formData in
  let linesAdding :=
    match linesStr with
    | Some (FormString str) =>
        if truthy str then
          match JSON_parse_lines P str with
          | Some parsed => parsed
          | None => []
          end
        else []
    | _ => []
    end in
  (linesAdding, fetcher).

End CartLinesAddHooks.

(** For the statements below: whether a string holds a slash. *)
Fixpoint has_slash (s : string) : bool :=
  match s with
  | EmptyString => false
  | String c s' => Ascii.eqb c "/"%char || has_slash s'
  end.

(** ** Example carts and requests *)

Module Examples.

Definition variantX : string := "gid://shopify/ProductVariant/1".
Definition variantY : string := "gid://shopify/ProductVariant/2".
Definition variantZ : string := "gid://shopify/ProductVariant/3".

Definition edge (lineId : string) (qty : Z) (variant : string) : CartLineEdge :=
  mkEdge (mkCartLine lineId qty (mkMerchandise variant)).

Definition connection (es : list CartLineEdge) : option CartLineConnection :=
  Some (mkConnection (Some es)).

Definition requested (variant : string) (qty : Z) : CartLineInput :=
  mkCartLineInput variant (Some qty) None [].

(** One line of variant X, one unit before the mutation and three after. *)
Definition increased : DiffLinesProps :=
  mkDiffLinesProps [requested variantX 2]
    (connection [edge "line-1" 1 variantX])
    (connection [edge "line-1" 3 variantX]).

(** A first add of variant X that the remote holds on two lines. *)
Definition tied : DiffLinesProps :=
  mkDiffLinesProps [requested variantX 2]
    None
    (connection [edge "line-1" 1 variantX; edge "line-2" 1 variantX]).

(** The same three lines before and after, the first one moved last. *)
Definition reordered : DiffLinesProps :=
  mkDiffLinesProps [requested variantX 1]
    (connection [edge "line-1" 1 variantX; edge "line-2" 1 variantY;
                 edge "line-3" 1 variantZ])
    (connection [edge "line-2" 1 variantY; edge "line-3" 1 variantZ;
                 edge "line-1" 1 variantX]).

(** Variant Y added to a cart holding variant X. *)
Definition appended : DiffLinesProps :=
  mkDiffLinesProps [requested variantY 1]
    (connection [edge "line-1" 1 variantX])
    (connection [edge "line-1" 1 variantX; edge "line-2" 1 variantY]).

(** A double quote, for JSON texts. *)
Definition dq : string := String (Ascii.ascii_of_nat 34) EmptyString.

(** The [lines] field of a form adding one unit of variant X. *)
Definition lines_json : string :=
  "[{" ++ dq ++ "merchandiseId" ++ dq ++ ":" ++ dq ++ variantX ++ dq ++ ","
       ++ dq ++ "quantity" ++ dq ++ ":1}]".

(** The [linesIds] field of a form removing one line. *)
Definition ids_json : string := "[" ++ dq ++ "gid://shopify/CartLine/1" ++ dq ++ "]".

(** The [optimisticLines] field of a form adding variant Y. *)
Definition optimistic_json : string :=
  "[{" ++ dq ++ "merchandise" ++ dq ++ ":{" ++ dq ++ "id" ++ dq ++ ":"
       ++ dq ++ variantY ++ dq ++ "}}]".

Definition optimisticY : PartialCartLine :=
  mkPartialCartLine None (Some 1) (Some (mkPartialMerchandise (Some variantY))).

Definition confirmedX : PartialCartLine :=
  mkPartialCartLine (Some "line-1") (Some 1)
    (Some (mkPartialMerchandise (Some variantX))).

(** A platform for the examples: [JSON.parse] on the texts above. *)
Definition platform : Platform := {|
  JSON_parse_lines s :=
    if String.eqb s lines_json then Some [requested variantX 1]
    else if String.eqb s "[]" then Some [] else None;
  JSON_parse_ids s :=
    if String.eqb s ids_json then Some ["gid://shopify/CartLine/1"]
    else if String.eqb s "[]" then Some [] else None;
  JSON_parse_updateLines s := if String.eqb s "[]" then Some [] else None;
  JSON_parse_buyerIdentity s := None;
  JSON_parse_cartLines s :=
    if String.eqb s optimistic_json then Some [optimisticY]
    else if String.eqb s "[]" then Some [] else None;
  isLocalPath url := match url with String "/" _ => true | _ => false end;
  usePrefixPathWithLocale path := path;
  commit session := "session=" ++ default "" (session !! "cartId");
  uuid n := "event-" ++ String (Ascii.ascii_of_nat (48 + n)) EmptyString
|}.

Definition cartX : Cart :=
  mkCart "gid://shopify/Cart/1" 1 (connection [edge "line-1" 1 variantX]).

Definition out_of_stock : UserError :=
  mkUserError (Some "INVALID") (Some ["lines"; "0"; "quantity"])
    (Some "You can only add 0 of this item to your cart.").

(** A remote that answers every call with the cart and no error. *)
Definition accepting : Storefront :=
  mkStorefront (fun _ _ => Some (mkPayload (Some cartX) (Some []))).

(** A remote that answers every call with the cart and a user error. *)
Definition rejecting : Storefront :=
  mkStorefront (fun _ _ => Some (mkPayload (Some cartX) (Some [out_of_stock]))).

(** The cart after one more unit of variant X went in. *)
Definition cartXX : Cart :=
  mkCart "gid://shopify/Cart/1" 2 (connection [edge "line-1" 2 variantX]).

(** A remote that holds [cartX] and takes what is added to it. *)
Definition growing : Storefront :=
  mkStorefront (fun _ call =>
    match call with
    | CART_LINES_QUERY _ => Some (mkPayload (Some cartX) None)
    | _ => Some (mkPayload (Some cartXX) (Some []))
    end).

(** A first visit, and a visit with a cart in the session. *)
Definition first_visit : World := mkWorld ∅ [] 0.
Definition returning : World := mkWorld {["cartId" := "gid://shopify/Cart/1"]} [] 0.

(** The form of [CartLinesAddForm], with and without scripting. *)
Definition add_request : Request :=
  mkRequest [("lines", FormString lines_json)].
Definition add_request_noscript : Request :=
  mkRequest [("lines", FormString lines_json);
             ("redirectTo", FormString "/products/snowboard")].

(** Forms of the cart route. *)
Definition cart_add_request : Request :=
  mkRequest [("cartAction", FormString "ADD_TO_CART");
             ("lines", FormString lines_json)].
Definition cart_remove_request : Request :=
  mkRequest [("cartAction", FormString "REMOVE_FROM_CART");
             ("linesIds", FormString ids_json)].

(** A fetcher submitting the form of [CartLinesAddForm] for variant Y. *)
Definition adding_fetcher : CartLinesAdd.Fetcher :=
  CartLinesAdd.mkFetcher
    (Some (CartLinesAdd.mkSubmission CartLinesAdd.ACTION_PATH
             (Some [("lines", FormString lines_json);
                    ("optimisticLines", FormString optimistic_json)])))
    None.

Definition first_event : LinesAddEvent :=
  mkEvent "lines_add" "event-0" [mkDiffingLine "line-1" 1 variantX].
Definition second_event : LinesAddEvent :=
  mkEvent "lines_add" "event-1" [mkDiffingLine "line-2" 1 variantY].

(** A snapshot the mutation left as it was. *)
Definition unchanged : DiffLinesProps :=
  mkDiffLinesProps [requested variantY 1]
    (connection [edge "line-1" 1 variantX])
    (connection [edge "line-1" 1 variantX]).

(** [JSON.stringify] on the arrays of the examples. *)
Definition stringify : CartLinesAddHooks.Stringify :=
  CartLinesAddHooks.mkStringify
    (fun ls => match ls with [] => "[]" | _ => lines_json end)
    (fun ls => match ls with [] => "[]" | _ => optimistic_json end).

(** A form of the cart route that updates the buyer identity, with no
    [buyerIdentity] field. *)
Definition buyer_request : Request :=
  mkRequest [("cartAction", FormString "UPDATE_BUYER_IDENTITY")].

End Examples.

(** * Properties *)

(** ** Edit scripts and the longest common subsequence *)

Section ScriptFacts.
Context {T U : Type} (compareFunc : T → U → bool).

(** What a script adds is a subsequence of the new array. *)
Lemma Script_added_sublist a b r d :
  Script compareFunc a b r d → d `sublist_of` b.
Proof.
  induction 1; [constructor | | done |].
  - by apply sublist_cons.
  - by apply sublist_skip.
Qed.

(** An element of the new array that no element of the old one compares
    equal to cannot be kept: every script adds it.  Stated for a whole
    selection [keep] of such elements, in order. *)
Lemma Script_adds_unmatched (keep : U → bool) a b r d :
  Script compareFunc a b r d →
  (∀ x y, x ∈ a → keep y = true → compareFunc x y = false) →
  List.filter keep b `sublist_of` d.
Proof.
  induction 1 as [|x y a b r d Hxy _ IH|x a b r d _ IH|y a b r d _ IH];
    intros Hkeep; simpl.
  - constructor.
  - destruct (keep y) eqn:Hy.
    + rewrite (Hkeep x y) in Hxy; [done | by left | done].
    + apply IH. intros x' y' Hx'. apply Hkeep. by right.
  - apply IH. intros x' y' Hx'. apply Hkeep. by right.
  - destruct (keep y).
    + apply sublist_skip. by apply IH.
    + apply sublist_cons. by apply IH.
Qed.

Lemma Script_adds_unmatched_elem a b r d y :
  Script compareFunc a b r d →
  y ∈ b → (∀ x, x ∈ a → compareFunc x y = false) → y ∈ d.
Proof.
  induction 1 as [|x y' a b r d Hxy _ IH|x a b r d _ IH|y' a b r d _ IH];
    intros Hy Hno.
  - done.
  - apply elem_of_cons in Hy as [->|Hy].
    + rewrite Hno in Hxy; [done | by left].
    + apply IH; [done|]. intros x' Hx'. apply Hno. by right.
  - apply IH; [done|]. intros x' Hx'. apply Hno. by right.
  - apply elem_of_cons in Hy as [->|Hy]; [by left|].
    right. by apply IH.
Qed.

Lemma Script_nothing_kept a b r d :
  Script compareFunc a b r d →
  (∀ x y, x ∈ a → y ∈ b → compareFunc x y = false) →
  d = b.
Proof.
  induction 1 as [|x y a b r d Hxy _ IH|x a b r d _ IH|y a b r d _ IH];
    intros Hno.
  - done.
  - rewrite Hno in Hxy; [done | by left | by left].
  - apply IH. intros x' y' Hx'. apply Hno. by right.
  - f_equal. apply IH. intros x' y' Hx' Hy'. apply Hno; [done | by right].
Qed.

Lemma Script_nil_r a r d : Script compareFunc a [] r d → d = [].
Proof.
  intros H. apply Script_added_sublist in H. by apply sublist_nil_r.
Qed.

(** Dropping the head of the new array costs no addition. *)
Lemma Script_drop_new y a b r d :
  Script compareFunc a (y :: b) r d →
  ∃ r' d', Script compareFunc a b r' d' ∧ (length d' ≤ length d)%nat.
Proof.
  intros H. remember (y :: b) as yb eqn:E.
  revert y b E.
  induction H as [|x y' a b' r d Hxy H IH|x a b' r d H IH|y' a b' r d H IH];
    intros y b E; simplify_eq.
  - exists (x :: r), d. split; [by constructor | done].
  - destruct (IH _ _ eq_refl) as (r' & d' & Hs & Hle).
    exists (x :: r'), d'. split; [by constructor | done].
  - exists r, d. split; [done | simpl; lia].
Qed.

(** Dropping the head of the old array costs at most one addition. *)
Lemma Script_drop_old x a b r d :
  Script compareFunc (x :: a) b r d →
  ∃ r' d', Script compareFunc a b r' d' ∧ (length d' ≤ S (length d))%nat.
Proof.
  intros H. remember (x :: a) as xa eqn:E.
  revert x a E.
  induction H as [|x' y a' b r d Hxy H IH|x' a' b r d H IH|y a' b r d H IH];
    intros x a E; simplify_eq.
  - exists r, (y :: d). split; [by constructor | done].
  - exists r, d. split; [done | lia].
  - destruct (IH _ _ eq_refl) as (r' & d' & Hs & Hle).
    exists r', (y :: d'). split; [by constructor | simpl; lia].
Qed.

Lemma lcs_nil_l b : lcs compareFunc [] b = mkDiffData [] b.
Proof. done. Qed.

Lemma lcs_nil_r a : lcs compareFunc a [] = mkDiffData a [].
Proof. by destruct a. Qed.

Lemma lcs_cons x a y b :
  lcs compareFunc (x :: a) (y :: b) =
    if compareFunc x y then lcs compareFunc a b
    else
      let rm := lcs compareFunc a (y :: b) in
      let ad := lcs compareFunc (x :: a) b in
      if (length (added rm) <=? S (length (added ad)))%nat
      then mkDiffData (x :: removed rm) (added rm)
      else mkDiffData (removed ad) (y :: added ad).
Proof. done. Qed.

Lemma Script_remove_all a : Script compareFunc a [] a [].
Proof. induction a; by constructor. Qed.

Lemma Script_add_all b : Script compareFunc [] b [] b.
Proof. induction b; by constructor. Qed.

(** [lcs] computes an edit script. *)
Lemma lcs_Script a b :
  Script compareFunc a b
    (removed (lcs compareFunc a b)) (added (lcs compareFunc a b)).
Proof.
  revert b. induction a as [|x a IHa]; intros b.
  - rewrite lcs_nil_l. apply Script_add_all.
  - induction b as [|y b IHb].
    + rewrite lcs_nil_r. apply Script_remove_all.
    + rewrite lcs_cons. destruct (compareFunc x y) eqn:Hxy.
      * by apply script_same.
      * cbv zeta. case_match; simpl.
        -- apply script_remove, IHa.
        -- apply script_add, IHb.
Qed.

(** No edit script adds fewer elements than [lcs]. *)
Lemma lcs_shortest a b r d :
  Script compareFunc a b r d →
  (length (added (lcs compareFunc a b)) ≤ length d)%nat.
Proof.
  revert b r d. induction a as [|x a IHa]; intros b.
  - intros r d H. rewrite lcs_nil_l. simpl.
    rewrite (Script_nothing_kept _ _ _ _ H); [done|].
    intros x y Hx. by apply elem_of_nil in Hx.
  - induction b as [|y b IHb]; intros r d H.
    + rewrite lcs_nil_r. simpl. lia.
    + rewrite lcs_cons. inversion H as [|? ? ? ? ? ? Hxy H'|? ? ? ? ? H'|? ? ? ? ? H'];
        subst.
      * rewrite Hxy. by eapply IHa.
      * destruct (compareFunc x y) eqn:Hxy.
        -- destruct (Script_drop_new _ _ _ _ _ H') as (r' & d' & Hs & Hle).
           exact (Nat.le_trans _ _ _ (IHa _ _ _ Hs) Hle).
        -- pose proof (IHa _ _ _ H') as Hrm.
           cbv zeta. case_match eqn:Hc; cbn [length added]; [done|].
           apply Nat.leb_gt in Hc. lia.
      * destruct (compareFunc x y) eqn:Hxy.
        -- destruct (Script_drop_old _ _ _ _ _ H') as (r' & d' & Hs & Hle).
           exact (Nat.le_trans _ _ _ (IHa _ _ _ Hs) Hle).
        -- pose proof (IHb _ _ H') as Had.
           cbv zeta. case_match eqn:Hc; cbn [length added]; [|lia].
           apply Nat.leb_le in Hc. lia.
Qed.

End ScriptFacts.

(** The executable diff meets the contract. *)
Lemma diff_LcsDiff : LcsDiff diff.
Proof.
  intros T U a b compareFunc. split.
  - apply lcs_Script.
  - intros r d. apply lcs_shortest.
Qed.

(** ** The line diff *)

Lemma comparer_spec prevLine line :
  comparer prevLine line = true ↔
    id prevLine = id line
    ∧ merchandiseId prevLine = merchandiseId line
    ∧ quantity line ≤ quantity prevLine.
Proof.
  unfold comparer. rewrite !andb_true_iff, !String.eqb_eq, Z.leb_le. tauto.
Qed.

Lemma comparer_false prevLine line :
  comparer prevLine line = false ↔
    ¬ (id prevLine = id line
       ∧ merchandiseId prevLine = merchandiseId line
       ∧ quantity line ≤ quantity prevLine).
Proof. rewrite <- comparer_spec. by destruct (comparer prevLine line). Qed.

Lemma includes_spec xs x : includes xs x = true ↔ x ∈ xs.
Proof.
  unfold includes. rewrite existsb_exists. split.
  - intros (y & Hy & E). apply String.eqb_eq in E as ->. by apply list_elem_of_In.
  - intros H. exists x. split; [by apply list_elem_of_In | apply String.eqb_refl].
Qed.

Lemma unmatched_spec prev line :
  unmatched prev line = true ↔ ∀ p, p ∈ prev → comparer p line = false.
Proof.
  unfold unmatched. rewrite negb_true_iff. split.
  - intros H p Hp. destruct (comparer p line) eqn:E; [|done].
    assert (existsb (λ prevLine, comparer prevLine line) prev = true) as H'; [|congruence].
    apply existsb_exists. exists p. split; [by apply list_elem_of_In | done].
  - intros H. destruct (existsb _ prev) eqn:E; [|done].
    apply existsb_exists in E as (p & Hp & Hc).
    apply list_elem_of_In in Hp. by rewrite H in Hc.
Qed.

Section DiffLines.
Variable diff : diff_t.
Hypothesis diff_lcs : LcsDiff diff.

Lemma diffLines_Script props :
  ∃ r, Script comparer (diffingLines (prevLines props))
         (diffingLines (currentLines props)) r (linesAdded (diffLines diff props)).
Proof. eexists. apply diff_lcs. Qed.

(** C1: a line of [next] is matched against a line of [prev] iff they have
    the same line id, the same merchandise id, and the next line's quantity
    is at most the prev line's; hence a line whose quantity strictly
    increased from [prev] to [next] (the entries of [prev] with its line id
    and merchandise id, of which there is one, all carry a smaller quantity)
    is classified as added. *)
Theorem diffLines_increased_is_added :
  (∀ prevLine line,
     comparer prevLine line = true ↔
       id prevLine = id line
       ∧ merchandiseId prevLine = merchandiseId line
       ∧ quantity line ≤ quantity prevLine)
  ∧ ∀ props prevLine line,
      prevLine ∈ diffingLines (prevLines props) →
      line ∈ diffingLines (currentLines props) →
      id prevLine = id line →
      merchandiseId prevLine = merchandiseId line →
      quantity prevLine < quantity line →
      (∀ p, p ∈ diffingLines (prevLines props) →
            id p = id line → merchandiseId p = merchandiseId line →
            quantity p < quantity line) →
      line ∈ linesAdded (diffLines diff props).
Proof.
  split; [apply comparer_spec|].
  intros props prevLine line _ Hline _ _ _ Hall.
  destruct (diffLines_Script props) as [r Hs].
  eapply Script_adds_unmatched_elem; [done..|].
  intros p Hp. apply comparer_false. intros (Hid & Hm & Hq).
  specialize (Hall p Hp Hid Hm). lia.
Qed.

(** C9: when the merchandise ids of [prev] and [next] are disjoint (in
    particular when [prev] is empty) every line of [next] is added, and
    when [next] is empty nothing is. *)
Theorem diffLines_disjoint_all_added props :
  ((∀ p l, p ∈ diffingLines (prevLines props) →
           l ∈ diffingLines (currentLines props) →
           merchandiseId p ≠ merchandiseId l) →
   linesAdded (diffLines diff props) = diffingLines (currentLines props))
  ∧ (diffingLines (prevLines props) = [] →
     linesAdded (diffLines diff props) = diffingLines (currentLines props))
  ∧ (diffingLines (currentLines props) = [] →
     linesAdded (diffLines diff props) = []).
Proof.
  destruct (diffLines_Script props) as [r Hs].
  assert ((∀ p l, p ∈ diffingLines (prevLines props) →
                  l ∈ diffingLines (currentLines props) →
                  merchandiseId p ≠ merchandiseId l) →
          linesAdded (diffLines diff props) = diffingLines (currentLines props))
    as Hdisjoint.
  { intros Hne. eapply Script_nothing_kept; [done|].
    intros p l Hp Hl. apply comparer_false. intros (_ & Hm & _).
    by apply (Hne p l). }
  split; [done|]. split.
  - intros Hnil. apply Hdisjoint. intros p l Hp. rewrite Hnil in Hp.
    by apply elem_of_nil in Hp.
  - intros Hnil. rewrite Hnil in Hs. by eapply Script_nil_r.
Qed.

End DiffLines.

Lemma filter_not_includes (ids : list string) (ls : list CartLineInput) :
  List.filter (λ l, negb (includes ids (input_merchandiseId l))) ls
  = filter (λ l, input_merchandiseId l ∉ ids) ls.
Proof.
  induction ls as [|l ls IH]; [done|].
  cbn [List.filter]. destruct (includes ids (input_merchandiseId l)) eqn:Hi; cbn [negb].
  - apply includes_spec in Hi. rewrite filter_cons_False; [done|].
    intros Hout. by apply Hout.
  - rewrite filter_cons_True; [by rewrite IH|].
    intros Hin. apply includes_spec in Hin. congruence.
Qed.

(** C2: [linesNotAdded] is exactly the lines of [addingLines] whose
    merchandise id does not occur among the merchandise ids of [linesAdded]:
    a requested line is in [linesNotAdded] iff its merchandise id is absent
    from [linesAdded], so it falls in exactly one of the two outcomes. *)
Theorem diffLines_linesNotAdded_complement (diff : diff_t) (props : DiffLinesProps) :
  linesNotAdded (diffLines diff props)
    = filter (λ l, input_merchandiseId l
                     ∉ map merchandiseId (linesAdded (diffLines diff props)))
        (addingLines props)
  ∧ ∀ l, l ∈ addingLines props →
      (l ∈ linesNotAdded (diffLines diff props)
       ∧ input_merchandiseId l
           ∉ map merchandiseId (linesAdded (diffLines diff props)))
      ∨ ((l ∉ linesNotAdded (diffLines diff props))
         ∧ input_merchandiseId l
             ∈ map merchandiseId (linesAdded (diffLines diff props))).
Proof.
  assert (linesNotAdded (diffLines diff props)
          = filter (λ l, input_merchandiseId l
                           ∉ map merchandiseId (linesAdded (diffLines diff props)))
              (addingLines props)) as E.
  { apply filter_not_includes. }
  split; [done|]. intros l Hl. rewrite E.
  destruct (decide (input_merchandiseId l
                      ∈ map merchandiseId (linesAdded (diffLines diff props))))
    as [Hin|Hout].
  - right. split; [|done]. rewrite list_elem_of_filter. tauto.
  - left. split; [|done]. by apply list_elem_of_filter.
Qed.

(** ** Snapshots that keep the order of their lines *)

Lemma elem_of_map {A B : Type} (f : A → B) (l : list A) (y : B) :
  y ∈ map f l ↔ ∃ x, y = f x ∧ x ∈ l.
Proof.
  rewrite list_elem_of_In, in_map_iff. split.
  - intros (x & <- & Hx). exists x. by rewrite list_elem_of_In.
  - intros (x & -> & Hx). exists x. by rewrite <- list_elem_of_In.
Qed.

Lemma filter_elem_of_cons_ne (x : string) (xs ys : list string) :
  x ∉ ys → filter (.∈ x :: xs) ys = filter (.∈ xs) ys.
Proof.
  induction ys as [|y ys IH]; intros Hx; [done|].
  apply not_elem_of_cons in Hx as [Hxy Hx].
  destruct (decide (y ∈ xs)) as [Hy|Hy].
  - rewrite !filter_cons_True; [by rewrite IH | done | by right].
  - rewrite !filter_cons_False; [by rewrite IH | done |].
    intros [->|?]%elem_of_cons; done.
Qed.

Lemma comparer_id p l : comparer p l = true → id p = id l.
Proof. intros H. by apply comparer_spec in H as (? & _). Qed.

Lemma comparer_other_id p (ls : list DiffingLine) l :
  id p ∉ map id ls → l ∈ ls → comparer p l = false.
Proof.
  intros Hp Hl. destruct (comparer p l) eqn:E; [|done].
  apply comparer_id in E. destruct Hp. apply elem_of_map. by exists l.
Qed.

Lemma filter_unmatched_cons p ps (ls : list DiffingLine) :
  (∀ l, l ∈ ls → comparer p l = false) →
  List.filter (unmatched (p :: ps)) ls = List.filter (unmatched ps) ls.
Proof.
  intros H. apply List.filter_ext_in. intros l Hl%list_elem_of_In.
  unfold unmatched. cbn [existsb]. by rewrite (H l Hl).
Qed.

Lemma filter_unmatched_nil (ls : list DiffingLine) :
  List.filter (unmatched []) ls = ls.
Proof. induction ls as [|l ls IH]; [done|]. cbn. by rewrite IH. Qed.

(** When line ids are unique in both snapshots and shared lines keep their
    order, one edit script keeps every line of [next] that has a match in
    [prev] and adds the others only. *)
Lemma same_order_Script prev next :
  NoDup (map id prev) → NoDup (map id next) → same_order prev next →
  ∃ r, Script comparer prev next r (List.filter (unmatched prev) next).
Proof.
  revert next. induction prev as [|p ps IHp]; intros next.
  { intros _ _ _. exists []. rewrite filter_unmatched_nil. apply Script_add_all. }
  induction next as [|n ns IHn]; intros Hp Hn Hso.
  { exists (p :: ps). apply Script_remove_all. }
  unfold same_order in Hso. cbn [map] in *.
  apply NoDup_cons in Hp as Hp'. destruct Hp' as [Hp1 Hp2].
  apply NoDup_cons in Hn as Hn'. destruct Hn' as [Hn1 Hn2].
  destruct (decide (id p ∈ id n :: map id ns)) as [Hpin|Hpout].
  - destruct (decide (id n ∈ id p :: map id ps)) as [Hnin|Hnout].
    + (* both heads are shared: they are the same line *)
      rewrite (filter_cons_True _ (id p)), (filter_cons_True _ (id n)) in Hso by done.
      injection Hso as Hid Hso.
      rewrite Hid in Hp1.
      assert (same_order ps ns) as Hso'.
      { unfold same_order.
        rewrite <- (filter_elem_of_cons_ne (id n) (map id ns) (map id ps)) by done.
        rewrite Hso, Hid. by apply filter_elem_of_cons_ne. }
      destruct (IHp ns Hp2 Hn2 Hso') as [r Hs].
      assert (List.filter (unmatched (p :: ps)) ns = List.filter (unmatched ps) ns)
        as Hns.
      { apply filter_unmatched_cons. intros l Hl.
        apply (comparer_other_id p ns); [by rewrite Hid | done]. }
      destruct (comparer p n) eqn:Hc.
      * exists r. cbn [List.filter]. unfold unmatched at 1. cbn [existsb].
        rewrite Hc. cbn. rewrite Hns. by apply script_same.
      * exists (p :: r). cbn [List.filter].
        assert (unmatched (p :: ps) n = true) as ->.
        { apply unmatched_spec. intros p' [->|Hp']%elem_of_cons; [done|].
          destruct (comparer p' n) eqn:E; [|done].
          apply comparer_id in E. destruct Hp1. apply elem_of_map. by exists p'. }
        rewrite Hns. by apply script_remove, script_add.
    + (* the head of next is new *)
      assert (same_order (p :: ps) ns) as Hso'.
      { unfold same_order. cbn [map].
        rewrite (filter_cons_False _ (id n)) in Hso by done.
        rewrite <- Hso. symmetry. apply filter_elem_of_cons_ne.
        intros H. apply Hnout. done. }
      destruct (IHn Hp Hn2 Hso') as [r Hs].
      exists r. cbn [List.filter].
      assert (unmatched (p :: ps) n = true) as ->.
      { apply unmatched_spec. intros p' Hp'.
        destruct (comparer p' n) eqn:E; [|done].
        apply comparer_id in E. destruct Hnout.
        change (id n ∈ map id (p :: ps)). apply elem_of_map. exists p'. by rewrite E. }
      by apply script_add.
  - (* the head of prev is gone *)
    assert (same_order ps (n :: ns)) as Hso'.
    { unfold same_order. cbn [map].
      rewrite (filter_cons_False _ (id p)) in Hso by done.
      rewrite Hso. by apply filter_elem_of_cons_ne. }
    destruct (IHp (n :: ns) Hp2 Hn Hso') as [r Hs].
    exists (p :: r).
    rewrite filter_unmatched_cons.
    + by apply script_remove.
    + intros l Hl. by apply (comparer_other_id p (n :: ns)).
Qed.

Lemma sublist_length_eq {A : Type} (l1 l2 : list A) :
  l1 `sublist_of` l2 → (length l2 ≤ length l1)%nat → l1 = l2.
Proof.
  induction 1 as [|x l1 l2 _ IH|x l1 l2 H _]; intros Hlen; [done|..].
  - f_equal. apply IH. simpl in Hlen. lia.
  - apply sublist_length in H. simpl in Hlen. lia.
Qed.

(** Under the same conditions the lines an LCS diff adds are exactly the
    lines of [next] without a match in [prev]. *)
Lemma same_order_added (diff : diff_t) prev next :
  LcsDiff diff →
  NoDup (map id prev) → NoDup (map id next) → same_order prev next →
  added (diff _ _ prev next comparer) = List.filter (unmatched prev) next.
Proof.
  intros Hdiff Hp Hn Hso.
  destruct (Hdiff _ _ prev next comparer) as [Hs Hmin].
  destruct (same_order_Script prev next Hp Hn Hso) as [r Hr].
  symmetry. apply sublist_length_eq.
  - eapply Script_adds_unmatched; [done|].
    intros x y Hx Hy. by apply (unmatched_spec prev y).
  - by eapply Hmin.
Qed.

(** C3 (as amended): every line of [linesAdded] is a line of the current
    snapshot; and when line ids are unique within each snapshot and the
    lines the snapshots share keep their order, every line of [linesAdded]
    carries a quantity strictly above that of the line of [prevLines] with
    its line id and merchandise id, if there is one: it was not present with
    an equal or greater quantity. *)
Theorem diffLines_added_sound (diff : diff_t) (props : DiffLinesProps) :
  LcsDiff diff →
  (∀ l, l ∈ linesAdded (diffLines diff props) →
        l ∈ diffingLines (currentLines props))
  ∧ (NoDup (map id (diffingLines (prevLines props))) →
     NoDup (map id (diffingLines (currentLines props))) →
     same_order (diffingLines (prevLines props)) (diffingLines (currentLines props)) →
     ∀ l p, l ∈ linesAdded (diffLines diff props) →
            p ∈ diffingLines (prevLines props) →
            id p = id l → merchandiseId p = merchandiseId l →
            quantity p < quantity l).
Proof.
  intros Hdiff. split.
  - intros l Hl. destruct (diffLines_Script diff Hdiff props) as [r Hs].
    apply Script_added_sublist in Hs. by eapply sublist_subseteq.
  - intros Hp Hn Hso l p Hl Hpin Hid Hm.
    unfold diffLines in Hl. cbn [linesAdded] in Hl.
    rewrite (same_order_added diff _ _ Hdiff Hp Hn Hso) in Hl.
    apply list_elem_of_In, filter_In in Hl as [_ Hl].
    pose proof (proj1 (unmatched_spec _ _) Hl p Hpin) as Hc.
    apply comparer_false in Hc.
    destruct (Z.lt_ge_cases (quantity p) (quantity l)) as [Hlt|Hge]; [done|].
    destruct Hc. split_and!; [done..|lia].
Qed.

(** On the reordered snapshot every LCS diff adds the moved line, and only
    it: the two lines that kept their order are the one longest common
    subsequence. *)
Lemma reordered_added (d : diff_t) :
  LcsDiff d →
  linesAdded (diffLines d Examples.reordered)
  = [mkDiffingLine "line-1" 1 Examples.variantX].
Proof.
  intros Hd. unfold diffLines. cbn [linesAdded].
  destruct (Hd _ _ (diffingLines (prevLines Examples.reordered))
              (diffingLines (currentLines Examples.reordered)) comparer)
    as [Hs Hmin].
  pose proof (Hmin _ _ (proj1 (diff_LcsDiff _ _ _ _ comparer))) as Hle.
  clear Hmin.
  change (length (added (diff _ _ (diffingLines (prevLines Examples.reordered))
                           (diffingLines (currentLines Examples.reordered))
                           comparer)))
    with 1%nat in Hle.
  revert Hs Hle.
  generalize (added (d _ _ (diffingLines (prevLines Examples.reordered))
                       (diffingLines (currentLines Examples.reordered)) comparer)).
  generalize (removed (d _ _ (diffingLines (prevLines Examples.reordered))
                         (diffingLines (currentLines Examples.reordered)) comparer)).
  intros r a Hs Hle. vm_compute in Hs.
  repeat match goal with
         | H : Script _ _ _ _ _ |- _ => inversion H; clear H; subst
         | H : comparer _ _ = true |- _ => by vm_compute in H
         end; try done.
  all: simpl in *; lia.
Qed.

(** C3 fails as stated, twice over: two added lines may share a merchandise
    id, and a line that only moved is added although it was present with
    the same quantity. *)
Lemma diffLines_added_ties_and_moves :
  (∃ l1 l2, l1 ≠ l2
            ∧ l1 ∈ linesAdded (diffLines diff Examples.tied)
            ∧ l2 ∈ linesAdded (diffLines diff Examples.tied)
            ∧ merchandiseId l1 = merchandiseId l2)
  ∧ (∃ l p, l ∈ linesAdded (diffLines diff Examples.reordered)
            ∧ p ∈ diffingLines (prevLines Examples.reordered)
            ∧ id p = id l ∧ merchandiseId p = merchandiseId l
            ∧ quantity l ≤ quantity p).
Proof.
  split.
  - exists (mkDiffingLine "line-1" 1 Examples.variantX),
           (mkDiffingLine "line-2" 1 Examples.variantX).
    split; [done|]. vm_compute. repeat split; repeat constructor.
  - exists (mkDiffingLine "line-1" 1 Examples.variantX),
           (mkDiffingLine "line-1" 1 Examples.variantX).
    vm_compute. repeat split; try discriminate; repeat constructor.
Qed.

Lemma diffLines_added_sound_witness :
  quantity (mkDiffingLine "line-1" 1 Examples.variantX)
  < quantity (mkDiffingLine "line-1" 3 Examples.variantX).
Proof.
  apply (proj2 (diffLines_added_sound diff Examples.increased diff_LcsDiff)).
  - vm_compute. repeat constructor; set_solver.
  - vm_compute. repeat constructor; set_solver.
  - reflexivity.
  - vm_compute. constructor.
  - vm_compute. constructor.
  - reflexivity.
  - reflexivity.
Defined.

Lemma diffLines_increased_is_added_witness :
  mkDiffingLine "line-1" 3 Examples.variantX
    ∈ linesAdded (diffLines diff Examples.increased).
Proof.
  apply (proj2 (diffLines_increased_is_added diff diff_LcsDiff) Examples.increased
           (mkDiffingLine "line-1" 1 Examples.variantX)).
  - vm_compute. constructor.
  - vm_compute. constructor.
  - reflexivity.
  - reflexivity.
  - reflexivity.
  - intros p Hp _ _. vm_compute in Hp.
    apply list_elem_of_singleton in Hp as ->. reflexivity.
Defined.

Lemma diffLines_disjoint_all_added_witness :
  linesAdded (diffLines diff Examples.tied) = diffingLines (currentLines Examples.tied).
Proof.
  apply (proj1 (diffLines_disjoint_all_added diff diff_LcsDiff Examples.tied)).
  intros p l Hp. vm_compute in Hp. by apply elem_of_nil in Hp.
Defined.

(** ** The action of the CartLinesAdd route *)

Example action_first_add :
  CartLinesAdd.action Examples.platform diff Examples.add_request
    (mkContext (Some Examples.accepting)) Examples.first_visit
  = (Returned
       (json (EventBody
                (mkEvent "lines_add" "event-0"
                   [mkDiffingLine "line-1" 1 Examples.variantX]) [])
          200 {["Set-Cookie" := "session=gid://shopify/Cart/1"]}),
     mkWorld {["cartId" := "gid://shopify/Cart/1"]}
       [CREATE_CART_MUTATION
          (mkCartInput (Some [Examples.requested Examples.variantX 1]) None)]
       1).
Proof. vm_compute. reflexivity. Qed.

(** One more unit of a variant already in the cart: the line is reported
    as added. *)
Example action_add_more :
  CartLinesAdd.action Examples.platform diff Examples.add_request
    (mkContext (Some Examples.growing)) Examples.returning
  = (Returned
       (json (EventBody
                (mkEvent "lines_add" "event-0"
                   [mkDiffingLine "line-1" 2 Examples.variantX]) [])
          200 ∅),
     mkWorld {["cartId" := "gid://shopify/Cart/1"]}
       [CART_LINES_QUERY "gid://shopify/Cart/1";
        ADD_LINES_MUTATION "gid://shopify/Cart/1"
          [Examples.requested Examples.variantX 1]]
       1).
Proof. vm_compute. reflexivity. Qed.

(** A line the remote leaves out without an error: the event is empty and
    the line is reported by the last segment of its merchandise id. *)
Example action_line_not_added :
  (CartLinesAdd.action Examples.platform diff Examples.add_request
     (mkContext (Some Examples.accepting)) Examples.returning).1
  = Returned
      (json (EventBody (mkEvent "lines_add" "event-0" [])
               [mkUserError (Some "LINE_NOT_ADDED") None (Some "1")])
         200 ∅).
Proof. vm_compute. reflexivity. Qed.

Example diffLines_appended :
  diffLines diff Examples.appended
  = mkDiffLinesResult [mkDiffingLine "line-2" 1 Examples.variantY] [].
Proof. vm_compute. reflexivity. Qed.

(** Running the request monad by hand. *)
Ltac run :=
  unfold mbind, M_bind, mret, M_ret, throw, invariant, session_get, session_set,
    session_commit, randomUUID, storefront_request, JSON_parse;
  cbn [negb network session drawn default from_option Datatypes.id fst snd].

Ltac run_all :=
  unfold mbind, M_bind, mret, M_ret, throw, invariant, session_get, session_set,
    session_commit, randomUUID, storefront_request, JSON_parse in *;
  cbn [negb network session drawn default from_option Datatypes.id fst snd] in *.

Lemma nonempty_length {A : Type} (l : list A) :
  l ≠ [] → negb (length l =? 0)%nat = true.
Proof. by destruct l. Qed.

(** The create flow, with a create that returns errors. *)
Lemma action_create_rejected (P : Platform) (diff : diff_t)
    (request : Request) (context : HydrogenContext) (sf : Storefront) (w : World)
    (v : FormDataEntryValue) (lines : list CartLineInput) (payload : CartPayload) :
  storefront context = Some sf →
  FormData_get "lines" (request_formData request) = Some v →
  truthy_entry (Some v) = true →
  JSON_parse_lines P (String_ v) = Some lines →
  lines ≠ [] →
  has_errors (errors payload) = true →
  truthy_value (session w !! "cartId") = false →
  respond sf (network w) (CREATE_CART_MUTATION (mkCartInput (Some lines) None))
    = Some payload →
  CartLinesAdd.action P diff request context w
  = (Returned (json (ErrorsBody (errors payload)) 200 ∅),
     mkWorld (session w)
       (network w ++ [CREATE_CART_MUTATION (mkCartInput (Some lines) None)])
       (drawn w)).
Proof.
  intros Hsf Hget Htruthy Hparse Hlines Herrors Hcart Hrespond.
  unfold CartLinesAdd.action, CartLinesAdd.cartCreate. run.
  rewrite Hget, Htruthy, Hparse. run.
  rewrite (nonempty_length _ Hlines), Hcart, Hsf. run.
  rewrite Hrespond. run.
  by rewrite Herrors.
Qed.

(** The add flow, with an add that returns errors. *)
Lemma action_add_rejected (P : Platform) (diff : diff_t)
    (request : Request) (context : HydrogenContext) (sf : Storefront) (w : World)
    (v : FormDataEntryValue) (lines : list CartLineInput) (payload : CartPayload)
    (cartId : string) (prevCart : Cart) :
  storefront context = Some sf →
  FormData_get "lines" (request_formData request) = Some v →
  truthy_entry (Some v) = true →
  JSON_parse_lines P (String_ v) = Some lines →
  lines ≠ [] →
  has_errors (errors payload) = true →
  session w !! "cartId" = Some cartId → truthy cartId = true →
  respond sf (network w) (CART_LINES_QUERY cartId) ≫= cart = Some prevCart →
  respond sf (network w ++ [CART_LINES_QUERY cartId])
    (ADD_LINES_MUTATION cartId lines) = Some payload →
  CartLinesAdd.action P diff request context w
  = (Returned (json (ErrorsBody (errors payload)) 200 ∅),
     mkWorld (session w)
       (network w ++ [CART_LINES_QUERY cartId; ADD_LINES_MUTATION cartId lines])
       (drawn w)).
Proof.
  intros Hsf Hget Htruthy Hparse Hlines Herrors Hcart Hid Hquery Hrespond.
  unfold CartLinesAdd.action, CartLinesAdd.getCartLines, CartLinesAdd.cartLinesAdd.
  run. rewrite Hget, Htruthy, Hparse. run.
  rewrite (nonempty_length _ Hlines), Hcart, Hsf. cbn [truthy_value].
  rewrite Hid. run. unfold mbind in Hquery.
  rewrite Hquery. run. rewrite Hrespond. run.
  rewrite Herrors. by rewrite <- app_assoc.
Qed.

(** C4: in both flows of the add-lines action, when the mutation returns a
    non-empty [errors] array the action returns exactly those errors and
    stops: whatever [diff] is, no UUID is drawn for an event, and nothing is
    written to the session; the world only gains the calls sent. *)
Theorem action_errors_short_circuit (P : Platform) (diff : diff_t)
    (request : Request) (context : HydrogenContext) (sf : Storefront) (w : World)
    (v : FormDataEntryValue) (lines : list CartLineInput) (payload : CartPayload) :
  storefront context = Some sf →
  FormData_get "lines" (request_formData request) = Some v →
  truthy_entry (Some v) = true →
  JSON_parse_lines P (String_ v) = Some lines →
  lines ≠ [] →
  has_errors (errors payload) = true →
  (truthy_value (session w !! "cartId") = false →
   respond sf (network w) (CREATE_CART_MUTATION (mkCartInput (Some lines) None))
     = Some payload →
   CartLinesAdd.action P diff request context w
   = (Returned (json (ErrorsBody (errors payload)) 200 ∅),
      mkWorld (session w)
        (network w ++ [CREATE_CART_MUTATION (mkCartInput (Some lines) None)])
        (drawn w)))
  ∧ (∀ cartId prevCart,
       session w !! "cartId" = Some cartId → truthy cartId = true →
       respond sf (network w) (CART_LINES_QUERY cartId) ≫= cart = Some prevCart →
       respond sf (network w ++ [CART_LINES_QUERY cartId])
         (ADD_LINES_MUTATION cartId lines) = Some payload →
       CartLinesAdd.action P diff request context w
       = (Returned (json (ErrorsBody (errors payload)) 200 ∅),
          mkWorld (session w)
            (network w ++ [CART_LINES_QUERY cartId; ADD_LINES_MUTATION cartId lines])
            (drawn w))).
Proof.
  intros Hsf Hget Htruthy Hparse Hlines Herrors. split.
  - intros Hcart Hrespond. by eapply action_create_rejected.
  - intros cartId prevCart Hcart Hid Hquery Hrespond.
    by eapply action_add_rejected.
Qed.

Lemma action_errors_short_circuit_witness :
  CartLinesAdd.action Examples.platform diff Examples.add_request
    (mkContext (Some Examples.rejecting)) Examples.first_visit
  = (Returned (json (ErrorsBody (Some [Examples.out_of_stock])) 200 ∅),
     mkWorld ∅
       [CREATE_CART_MUTATION
          (mkCartInput (Some [Examples.requested Examples.variantX 1]) None)]
       0).
Proof.
  apply (proj1 (action_errors_short_circuit Examples.platform diff
                  Examples.add_request (mkContext (Some Examples.rejecting))
                  Examples.rejecting Examples.first_visit
                  (FormString Examples.lines_json)
                  [Examples.requested Examples.variantX 1]
                  (mkPayload (Some Examples.cartX) (Some [Examples.out_of_stock]))
                  eq_refl eq_refl eq_refl eq_refl ltac:(discriminate) eq_refl));
    reflexivity.
Defined.

(** With a local [redirectTo] the response step redirects at once. *)
Lemma linesAddResponse_redirect (P : Platform) (diff : diff_t) prevCart cart lines
    formData headers path w :
  local_redirect P formData = Some path →
  CartLinesAdd.linesAddResponse P diff prevCart cart lines formData headers w
  = (Returned (redirect path headers), w).
Proof. intros H. unfold CartLinesAdd.linesAddResponse. by rewrite H. Qed.

(** C10 (as amended): with a string [redirectTo] that is a local path, the
    response step of the add-lines action is a redirect to that path with
    the headers it was given; hence no invocation draws a UUID or returns an
    event body, and an invocation whose mutation succeeds returns the
    redirect, with the [Set-Cookie] header in the create flow. *)
Theorem action_local_redirect (P : Platform) (diff : diff_t)
    (request : Request) (context : HydrogenContext) (w : World) (path : string) :
  local_redirect P (request_formData request) = Some path →
  (∀ prevCart cart lines headers w0,
     CartLinesAdd.linesAddResponse P diff prevCart cart lines
       (request_formData request) headers w0
     = (Returned (redirect path headers), w0))
  ∧ (∀ r w', CartLinesAdd.action P diff request context w = (r, w') →
       drawn w' = drawn w
       ∧ ∀ event errors status headers,
           r ≠ Returned (json (EventBody event errors) status headers))
  ∧ (∀ sf v lines payload,
       storefront context = Some sf →
       FormData_get "lines" (request_formData request) = Some v →
       truthy_entry (Some v) = true →
       JSON_parse_lines P (String_ v) = Some lines →
       lines ≠ [] →
       has_errors (errors payload) = false →
       (∀ c, truthy_value (session w !! "cartId") = false →
             respond sf (network w)
               (CREATE_CART_MUTATION (mkCartInput (Some lines) None)) = Some payload →
             cart payload = Some c →
             CartLinesAdd.action P diff request context w
             = (Returned
                  (redirect path
                     {["Set-Cookie" := commit P (<["cartId" := cart_id c]> (session w))]}),
                mkWorld (<["cartId" := cart_id c]> (session w))
                  (network w ++ [CREATE_CART_MUTATION (mkCartInput (Some lines) None)])
                  (drawn w)))
       ∧ (∀ cartId prevCart,
            session w !! "cartId" = Some cartId → truthy cartId = true →
            respond sf (network w) (CART_LINES_QUERY cartId) ≫= cart = Some prevCart →
            respond sf (network w ++ [CART_LINES_QUERY cartId])
              (ADD_LINES_MUTATION cartId lines) = Some payload →
            CartLinesAdd.action P diff request context w
            = (Returned (redirect path ∅),
               mkWorld (session w)
                 (network w ++ [CART_LINES_QUERY cartId; ADD_LINES_MUTATION cartId lines])
                 (drawn w)))).
Proof.
  intros Hredirect. split; [|split].
  - intros. by apply linesAddResponse_redirect.
  - intros r w'.
    unfold CartLinesAdd.action, CartLinesAdd.cartCreate, CartLinesAdd.getCartLines,
      CartLinesAdd.cartLinesAdd.
    run. intros H.
    repeat (first [ rewrite (linesAddResponse_redirect _ _ _ _ _ _ _ _ _ Hredirect) in H
                  | case_match; run_all; simplify_eq ]);
      cbn [drawn]; (split; [done | by intros]).
  - intros sf v lines payload Hsf Hget Htruthy Hparse Hlines Herrors. split.
    + intros c Hcart Hrespond Hc.
      unfold CartLinesAdd.action, CartLinesAdd.cartCreate. run.
      rewrite Hget, Htruthy, Hparse. run.
      rewrite (nonempty_length _ Hlines), Hcart, Hsf. run.
      rewrite Hrespond. run. rewrite Herrors, Hc. run.
      by rewrite (linesAddResponse_redirect _ _ _ _ _ _ _ _ _ Hredirect).
    + intros cartId prevCart Hcart Hid Hquery Hrespond.
      unfold CartLinesAdd.action, CartLinesAdd.getCartLines, CartLinesAdd.cartLinesAdd.
      run. rewrite Hget, Htruthy, Hparse. run.
      rewrite (nonempty_length _ Hlines), Hcart, Hsf. cbn [truthy_value].
      rewrite Hid. run. unfold mbind in Hquery.
      rewrite Hquery. run. rewrite Hrespond. run.
      rewrite Herrors.
      rewrite (linesAddResponse_redirect _ _ _ _ _ _ _ _ _ Hredirect).
      by rewrite <- app_assoc.
Qed.

(** C10 fails as stated: a form without scripting (a local [redirectTo])
    whose mutation is rejected gets the errors as JSON, not a redirect. *)
Lemma action_errors_despite_redirect :
  local_redirect Examples.platform (request_formData Examples.add_request_noscript)
    = Some "/products/snowboard"
  ∧ (CartLinesAdd.action Examples.platform diff Examples.add_request_noscript
       (mkContext (Some Examples.rejecting)) Examples.first_visit).1
    = Returned (json (ErrorsBody (Some [Examples.out_of_stock])) 200 ∅).
Proof. split; vm_compute; reflexivity. Qed.

Lemma action_local_redirect_witness :
  CartLinesAdd.action Examples.platform diff Examples.add_request_noscript
    (mkContext (Some Examples.accepting)) Examples.first_visit
  = (Returned
       (redirect "/products/snowboard"
          {["Set-Cookie" :=
              commit Examples.platform
                (<["cartId" := cart_id Examples.cartX]> (session Examples.first_visit))]}),
     mkWorld (<["cartId" := cart_id Examples.cartX]> (session Examples.first_visit))
       (network Examples.first_visit
          ++ [CREATE_CART_MUTATION
                (mkCartInput (Some [Examples.requested Examples.variantX 1]) None)])
       (drawn Examples.first_visit)).
Proof.
  apply (proj1 (proj2 (proj2
           (action_local_redirect Examples.platform diff Examples.add_request_noscript
              (mkContext (Some Examples.accepting)) Examples.first_visit
              "/products/snowboard" eq_refl))
           Examples.accepting (FormString Examples.lines_json)
           [Examples.requested Examples.variantX 1]
           (mkPayload (Some Examples.cartX) (Some []))
           eq_refl eq_refl eq_refl eq_refl ltac:(discriminate) eq_refl));
    reflexivity.
Defined.

(** ** The cart route *)

Ltac run_cart :=
  unfold CartRoute.action, CartRoute.json_field, CartRoute.persist_cart,
    CartRoute.cartCreate, CartRoute.cartAdd, CartRoute.cartRemove,
    CartRoute.cartUpdate, CartRoute.cartDiscountCodesUpdate,
    CartRoute.cartUpdateBuyerIdentity, CartRoute.mutation; run.

Ltac run_switch :=
  unfold CartRoute.action, CartRoute.persist_cart,
    CartRoute.cartCreate, CartRoute.cartAdd, CartRoute.cartRemove,
    CartRoute.cartUpdate, CartRoute.cartDiscountCodesUpdate,
    CartRoute.cartUpdateBuyerIdentity, CartRoute.mutation; run;
  repeat match goal with
         | H : FormData_get "cartAction" _ = Some _ |- _ => rewrite H
         end;
  cbn [option_bind CartRoute.switch_case String.eqb Ascii.eqb Bool.eqb
       truthy_entry truthy negb]; run.

(** C6 (as amended): in the no-cart add flow, a create that returns a cart
    has its cart id written to the session, and the response carries the
    [Set-Cookie] header [session.commit()] gives for the session so written.
    The CartLinesAdd action does so when the create returns no error, and
    leaves the session and the headers alone when it returns errors; the
    cart route's action does so whenever the create returns a cart. *)
Theorem create_flow_persists_cart_id (P : Platform) (diff : diff_t)
    (request : Request) (context : HydrogenContext) (sf : Storefront) (w : World)
    (v : FormDataEntryValue) (lines : list CartLineInput) (payload : CartPayload) :
  storefront context = Some sf →
  FormData_get "lines" (request_formData request) = Some v →
  truthy_entry (Some v) = true →
  JSON_parse_lines P (String_ v) = Some lines →
  lines ≠ [] →
  truthy_value (session w !! "cartId") = false →
  (respond sf (network w) (CREATE_CART_MUTATION (mkCartInput (Some lines) None))
     = Some payload →
   (∀ c, has_errors (errors payload) = false → cart payload = Some c →
      ∃ response w',
        CartLinesAdd.action P diff request context w = (Returned response, w')
        ∧ session w' = <["cartId" := cart_id c]> (session w)
        ∧ response_headers response !! "Set-Cookie" = Some (commit P (session w')))
   ∧ (has_errors (errors payload) = true →
      ∃ response w',
        CartLinesAdd.action P diff request context w = (Returned response, w')
        ∧ session w' = session w
        ∧ response_headers response !! "Set-Cookie" = None))
  ∧ (FormData_get "cartAction" (request_formData request)
       = Some (FormString "ADD_TO_CART") →
     respond sf (network w)
       (CREATE_CART_MUTATION
          (CartRoute.create_input
             (CartRoute.form_countryCode (request_formData request)) lines))
       = Some payload →
     ∀ c, cart payload = Some c →
       ∃ response w',
         CartRoute.action P request context w = (Returned response, w')
         ∧ session w' = <["cartId" := cart_id c]> (session w)
         ∧ response_headers response !! "Set-Cookie" = Some (commit P (session w'))).
Proof.
  intros Hsf Hget Htruthy Hparse Hlines Hcart. split.
  - intros Hrespond. split.
    + intros c Herrors Hc.
      unfold CartLinesAdd.action, CartLinesAdd.cartCreate. run.
      rewrite Hget, Htruthy, Hparse. run.
      rewrite (nonempty_length _ Hlines), Hcart, Hsf. run.
      rewrite Hrespond. run. rewrite Herrors, Hc. run.
      unfold CartLinesAdd.linesAddResponse, CartLinesAdd.instrumentEvent.
      destruct (local_redirect P (request_formData request)); run;
        (do 2 eexists; split; [done|]; cbn [session response_headers];
         split; [done | by rewrite lookup_insert_eq]).
    + intros Herrors.
      rewrite (action_create_rejected P diff request context sf w v lines payload
                 Hsf Hget Htruthy Hparse Hlines Herrors Hcart Hrespond).
      do 2 eexists. split; [done|]. by cbn.
  - intros Haction Hrespond c Hc. run_cart.
    rewrite Haction, Hget, Htruthy, Hparse.
    cbn [truthy_entry truthy String.eqb Ascii.eqb Bool.eqb negb
         CartRoute.switch_case]. run.
    rewrite (nonempty_length _ Hlines), Hcart, Hsf.
    cbn [option_bind CartRoute.switch_case String.eqb Ascii.eqb Bool.eqb]. run.
    rewrite Hrespond. run. rewrite Hc. run.
    destruct (local_redirect P (request_formData request)); run;
      (do 2 eexists; split; [done|]; cbn [session response_headers];
       split; [done|]).
    + rewrite lookup_insert_ne by done. by rewrite lookup_insert_eq.
    + by rewrite lookup_insert_eq.
Qed.

(** C6 fails as stated on the cart route: a create that returns a cart
    together with user errors still has the cart id written to the
    session. *)
Lemma cart_route_persists_despite_errors :
  respond Examples.rejecting (network Examples.first_visit)
    (CREATE_CART_MUTATION
       (mkCartInput (Some [Examples.requested Examples.variantX 1]) None))
    = Some (mkPayload (Some Examples.cartX) (Some [Examples.out_of_stock]))
  ∧ has_errors (Some [Examples.out_of_stock]) = true
  ∧ session (CartRoute.action Examples.platform Examples.cart_add_request
               (mkContext (Some Examples.rejecting)) Examples.first_visit).2
      !! "cartId" = Some "gid://shopify/Cart/1".
Proof. repeat split; vm_compute; reflexivity. Qed.

Lemma create_flow_persists_cart_id_witness :
  ∃ response w',
    CartLinesAdd.action Examples.platform diff Examples.add_request
      (mkContext (Some Examples.accepting)) Examples.first_visit
    = (Returned response, w')
    ∧ session w' = <["cartId" := cart_id Examples.cartX]> (session Examples.first_visit)
    ∧ response_headers response !! "Set-Cookie"
      = Some (commit Examples.platform (session w')).
Proof.
  apply (proj1 (proj1
           (create_flow_persists_cart_id Examples.platform diff Examples.add_request
              (mkContext (Some Examples.accepting)) Examples.accepting
              Examples.first_visit (FormString Examples.lines_json)
              [Examples.requested Examples.variantX 1]
              (mkPayload (Some Examples.cartX) (Some []))
              eq_refl eq_refl eq_refl eq_refl ltac:(discriminate) eq_refl)
           eq_refl));
    reflexivity.
Defined.

(** The preconditions the two actions enforce: no lines to add, to update
    or to remove, no cart id for a discount update, no [cartAction] or one
    of no case.  Each failure is thrown with the world untouched, so before
    any call to the API. *)
Lemma actions_enforced_preconditions (P : Platform) (diff : diff_t)
    (request : Request) (context : HydrogenContext) (w : World) :
  (* the add-lines action: no lines *)
  (CartRoute.json_field (JSON_parse_lines P) [] "lines" (request_formData request) w
     = (Returned [], w) →
   CartLinesAdd.action P diff request context w
   = (Thrown (InvariantFailed "No lines to add"), w))
  (* the cart action: no tag, or a tag of no case *)
  ∧ (truthy_entry (FormData_get "cartAction" (request_formData request)) = false →
     CartRoute.action P request context w
     = (Thrown (InvariantFailed "No cartAction defined"), w))
  ∧ (∀ tag, FormData_get "cartAction" (request_formData request) = Some tag →
       truthy_entry (Some tag) = true → CartRoute.switch_case tag = None →
       CartRoute.action P request context w
       = (Thrown (InvariantFailed (String_ tag ++ " cart action is not defined")), w))
  (* the cart action: add, remove and update without lines *)
  ∧ (FormData_get "cartAction" (request_formData request)
       = Some (FormString "ADD_TO_CART") →
     CartRoute.json_field (JSON_parse_lines P) [] "lines" (request_formData request) w
       = (Returned [], w) →
     CartRoute.action P request context w
     = (Thrown (InvariantFailed "No lines to add"), w))
  ∧ (FormData_get "cartAction" (request_formData request)
       = Some (FormString "REMOVE_FROM_CART") →
     CartRoute.json_field (JSON_parse_ids P) [] "linesIds" (request_formData request) w
       = (Returned [], w) →
     CartRoute.action P request context w
     = (Thrown (InvariantFailed "No lines to remove"), w))
  ∧ (FormData_get "cartAction" (request_formData request)
       = Some (FormString "UPDATE_CART") →
     CartRoute.json_field (JSON_parse_updateLines P) [] "lines"
       (request_formData request) w = (Returned [], w) →
     CartRoute.action P request context w
     = (Thrown (InvariantFailed "No lines to update"), w))
  (* the cart action: a discount update without a cart id *)
  ∧ (FormData_get "cartAction" (request_formData request)
       = Some (FormString "UPDATE_DISCOUNT") →
     truthy_value (session w !! "cartId") = false →
     CartRoute.action P request context w
     = (Thrown (InvariantFailed "Missing cartId"), w)).
Proof.
  split_and!.
  - unfold CartLinesAdd.action, CartRoute.json_field. run. intros H.
    destruct (FormData_get "lines" (request_formData request)) as [v|];
      [destruct (truthy_entry (Some v))|]; run_all.
    + destruct (JSON_parse_lines P (String_ v)); simplify_eq; reflexivity.
    + simplify_eq; reflexivity.
    + simplify_eq; reflexivity.
  - intros H. run_switch. by rewrite H.
  - intros tag Htag Htruthy Hcase.
    unfold CartRoute.action. run. rewrite Htag, Htruthy.
    cbn [option_bind]. by rewrite Hcase.
  - intros Htag Hfield. run_switch. by rewrite Hfield.
  - intros Htag Hfield. run_switch. by rewrite Hfield.
  - intros Htag Hfield. run_switch. by rewrite Hfield.
  - intros Htag Hcart. run_switch. by rewrite Hcart.
Qed.

Lemma actions_enforced_preconditions_witness :
  CartRoute.action Examples.platform
    (mkRequest [("cartAction", FormString "UPDATE_DISCOUNT");
                ("discountCodes", FormString "WELCOME10")])
    (mkContext (Some Examples.accepting)) Examples.first_visit
  = (Thrown (InvariantFailed "Missing cartId"), Examples.first_visit).
Proof.
  apply (proj2 (proj2 (proj2 (proj2 (proj2 (proj2
           (actions_enforced_preconditions Examples.platform diff
              (mkRequest [("cartAction", FormString "UPDATE_DISCOUNT");
                          ("discountCodes", FormString "WELCOME10")])
              (mkContext (Some Examples.accepting)) Examples.first_visit)))))));
    reflexivity.
Defined.

(** A remove or an update goes to the API with whatever cart id the session
    holds, also with none. *)
Lemma cart_action_forwards_cart_id (P : Platform) (request : Request)
    (context : HydrogenContext) (sf : Storefront) (w : World) :
  storefront context = Some sf →
  (∀ lineIds,
     FormData_get "cartAction" (request_formData request)
       = Some (FormString "REMOVE_FROM_CART") →
     CartRoute.json_field (JSON_parse_ids P) [] "linesIds" (request_formData request) w
       = (Returned lineIds, w) →
     lineIds ≠ [] →
     network (CartRoute.action P request context w).2
     = (network w ++ [REMOVE_LINES_MUTATION (session w !! "cartId") lineIds])%list)
  ∧ (∀ updateLines,
       FormData_get "cartAction" (request_formData request)
         = Some (FormString "UPDATE_CART") →
       CartRoute.json_field (JSON_parse_updateLines P) [] "lines"
         (request_formData request) w = (Returned updateLines, w) →
       updateLines ≠ [] →
       network (CartRoute.action P request context w).2
       = (network w ++ [UPDATE_LINES_MUTATION (session w !! "cartId") updateLines])%list).
Proof.
  intros Hsf. split.
  - intros lineIds Htag Hfield Hne. run_switch. rewrite Hfield, Hsf. run.
    rewrite (nonempty_length _ Hne). run.
    destruct (respond sf (network w) _) as [payload|]; run; [|done].
    by destruct (local_redirect P (request_formData request)).
  - intros updateLines Htag Hfield Hne. run_switch. rewrite Hfield, Hsf. run.
    rewrite (nonempty_length _ Hne). run.
    destruct (respond sf (network w) _) as [payload|]; run; [|done].
    by destruct (local_redirect P (request_formData request)).
Qed.

(** C5 on the code: a remove submitted with no cart id in the session is
    not aborted; the mutation is sent without a cart id and its answer
    returned. *)
Theorem cart_remove_without_cart_id :
  session Examples.first_visit !! "cartId" = None
  ∧ CartRoute.action Examples.platform Examples.cart_remove_request
      (mkContext (Some Examples.accepting)) Examples.first_visit
    = (Returned (json (CartBody (Some Examples.cartX) (Some [])) 200 ∅),
       mkWorld ∅ [REMOVE_LINES_MUTATION None ["gid://shopify/CartLine/1"]] 0).
Proof. split; vm_compute; reflexivity. Qed.

(** ** Delivery of events to [onSuccess] *)

Section Delivery.
Context {Callback : Type}.
Implicit Types (c : @CartLinesAdd.Consumer Callback) (f : Callback).

Lemma form_effect_step f fetcher event c :
  CartLinesAdd.fetcher_data fetcher ≫= CartLinesAdd.data_event = Some event →
  truthy (event_id event) = true →
  (Some (event_id event) ≠ CartLinesAdd.lastEventId c →
   CartLinesAdd.CartLinesAddForm_effect (Some f) fetcher c
   = CartLinesAdd.mkConsumer (Some (event_id event))
       (CartLinesAdd.invoked c ++ [(f, event)]))
  ∧ (Some (event_id event) = CartLinesAdd.lastEventId c →
     CartLinesAdd.CartLinesAddForm_effect (Some f) fetcher c = c).
Proof.
  intros Hev Hid. unfold CartLinesAdd.CartLinesAddForm_effect.
  rewrite Hev. cbn zeta. rewrite Hid. cbn [negb].
  split; intros H.
  - by rewrite bool_decide_eq_false_2.
  - by rewrite bool_decide_eq_true_2.
Qed.

Lemma hook_effect_step f fetcher event c :
  CartLinesAdd.fetcher_data fetcher ≫= CartLinesAdd.data_event = Some event →
  (Some (event_id event) ≠ CartLinesAdd.lastEventId c →
   CartLinesAdd.useCartLinesAdd_effect f fetcher c
   = CartLinesAdd.mkConsumer (Some (event_id event))
       (CartLinesAdd.invoked c ++ [(f, event)]))
  ∧ (Some (event_id event) = CartLinesAdd.lastEventId c →
     CartLinesAdd.useCartLinesAdd_effect f fetcher c = c).
Proof.
  intros Hev. unfold CartLinesAdd.useCartLinesAdd_effect. rewrite Hev.
  split; intros H.
  - by rewrite bool_decide_eq_false_2.
  - by rewrite bool_decide_eq_true_2.
Qed.

(** Running the effect again on the fetcher it just saw changes nothing,
    whatever [onSuccess] has become. *)
Lemma form_effect_again onSuccess onSuccess' fetcher c :
  CartLinesAdd.CartLinesAddForm_effect onSuccess' fetcher
    (CartLinesAdd.CartLinesAddForm_effect onSuccess fetcher c)
  = CartLinesAdd.CartLinesAddForm_effect onSuccess fetcher c.
Proof.
  unfold CartLinesAdd.CartLinesAddForm_effect.
  destruct (CartLinesAdd.fetcher_data fetcher ≫= CartLinesAdd.data_event)
    as [event|]; [|done].
  cbn zeta. destruct (truthy (event_id event)); cbn [negb]; [|done].
  destruct (decide (Some (event_id event) = CartLinesAdd.lastEventId c)) as [E|E].
  - by rewrite !(bool_decide_eq_true_2 _ E).
  - rewrite (bool_decide_eq_false_2 _ E). cbn [CartLinesAdd.lastEventId].
    by rewrite bool_decide_eq_true_2.
Qed.

Lemma hook_effect_again f f' fetcher c :
  CartLinesAdd.useCartLinesAdd_effect f' fetcher
    (CartLinesAdd.useCartLinesAdd_effect f fetcher c)
  = CartLinesAdd.useCartLinesAdd_effect f fetcher c.
Proof.
  unfold CartLinesAdd.useCartLinesAdd_effect.
  destruct (CartLinesAdd.fetcher_data fetcher ≫= CartLinesAdd.data_event)
    as [event|]; [|done].
  destruct (decide (CartLinesAdd.lastEventId c = Some (event_id event))) as [E|E].
  - by rewrite !(bool_decide_eq_true_2 _ E).
  - rewrite (bool_decide_eq_false_2 _ E). cbn [CartLinesAdd.lastEventId].
    by rewrite bool_decide_eq_true_2.
Qed.

(** An event on show for [n + 1] renders in a row is delivered on the
    first of them, if its id is not the last delivered one. *)
Lemma form_renders_replicate f event n c :
  truthy (event_id event) = true →
  Some (event_id event) ≠ CartLinesAdd.lastEventId c →
  CartLinesAdd.CartLinesAddForm_renders
    (replicate (S n) (Some f, CartLinesAdd.showing event)) c
  = CartLinesAdd.mkConsumer (Some (event_id event))
      (CartLinesAdd.invoked c ++ [(f, event)]).
Proof.
  intros Hid Hne. unfold CartLinesAdd.CartLinesAddForm_renders.
  cbn [replicate fold_left fst snd].
  rewrite (proj1 (form_effect_step f (CartLinesAdd.showing event) event c
                    eq_refl Hid) Hne).
  induction n as [|n IH]; [done|].
  cbn [replicate fold_left fst snd].
  by rewrite (proj2 (form_effect_step f (CartLinesAdd.showing event) event
                       (CartLinesAdd.mkConsumer (Some (event_id event))
                          (CartLinesAdd.invoked c ++ [(f, event)]))
                       eq_refl Hid) eq_refl).
Qed.

Lemma hook_renders_replicate f event n c :
  Some (event_id event) ≠ CartLinesAdd.lastEventId c →
  CartLinesAdd.useCartLinesAdd_renders
    (replicate (S n) (f, CartLinesAdd.showing event)) c
  = CartLinesAdd.mkConsumer (Some (event_id event))
      (CartLinesAdd.invoked c ++ [(f, event)]).
Proof.
  intros Hne. unfold CartLinesAdd.useCartLinesAdd_renders.
  cbn [replicate fold_left fst snd].
  rewrite (proj1 (hook_effect_step f (CartLinesAdd.showing event) event c
                    eq_refl) Hne).
  induction n as [|n IH]; [done|].
  cbn [replicate fold_left fst snd].
  by rewrite (proj2 (hook_effect_step f (CartLinesAdd.showing event) event
                       (CartLinesAdd.mkConsumer (Some (event_id event))
                          (CartLinesAdd.invoked c ++ [(f, event)]))
                       eq_refl) eq_refl).
Qed.

Lemma form_renders_of_invoked (shown : list (Callback * LinesAddEvent * nat)) c :
  NoDup (map (λ u, event_id u.1.2) shown) →
  (∀ u, u ∈ shown → truthy (event_id u.1.2) = true) →
  (∀ u, u ∈ shown → Some (event_id u.1.2) ≠ CartLinesAdd.lastEventId c) →
  CartLinesAdd.invoked
    (CartLinesAdd.CartLinesAddForm_renders (CartLinesAdd.form_renders_of shown) c)
  = (CartLinesAdd.invoked c ++ map fst shown)%list.
Proof.
  revert c. induction shown as [|[[f event] n] shown IH]; intros c Hnd Hid Hlast.
  - cbn. by rewrite app_nil_r.
  - cbn [map fst snd] in Hnd. apply NoDup_cons in Hnd as [Hfresh Hnd].
    unfold CartLinesAdd.form_renders_of, CartLinesAdd.CartLinesAddForm_renders in *.
    cbn [flat_map fst snd]. rewrite fold_left_app.
    pose proof (form_renders_replicate f event n c) as Hstep.
    unfold CartLinesAdd.CartLinesAddForm_renders in Hstep.
    rewrite Hstep.
    + rewrite IH; [|done|..].
      * cbn [CartLinesAdd.invoked map fst]. by rewrite <- app_assoc.
      * intros u Hu. apply Hid. by right.
      * intros u Hu. cbn [CartLinesAdd.lastEventId]. intros [= E].
        apply Hfresh. apply elem_of_map. by exists u.
    + apply (Hid (f, event, n)). by left.
    + apply (Hlast (f, event, n)). by left.
Qed.

Lemma hook_renders_of_invoked (shown : list (Callback * LinesAddEvent * nat)) c :
  NoDup (map (λ u, event_id u.1.2) shown) →
  (∀ u, u ∈ shown → Some (event_id u.1.2) ≠ CartLinesAdd.lastEventId c) →
  CartLinesAdd.invoked
    (CartLinesAdd.useCartLinesAdd_renders (CartLinesAdd.hook_renders_of shown) c)
  = (CartLinesAdd.invoked c ++ map fst shown)%list.
Proof.
  revert c. induction shown as [|[[f event] n] shown IH]; intros c Hnd Hlast.
  - cbn. by rewrite app_nil_r.
  - cbn [map fst snd] in Hnd. apply NoDup_cons in Hnd as [Hfresh Hnd].
    unfold CartLinesAdd.hook_renders_of, CartLinesAdd.useCartLinesAdd_renders in *.
    cbn [flat_map fst snd]. rewrite fold_left_app.
    pose proof (hook_renders_replicate f event n c) as Hstep.
    unfold CartLinesAdd.useCartLinesAdd_renders in Hstep.
    rewrite Hstep.
    + rewrite IH; [|done|].
      * cbn [CartLinesAdd.invoked map fst]. by rewrite <- app_assoc.
      * intros u Hu. cbn [CartLinesAdd.lastEventId]. intros [= E].
        apply Hfresh. apply elem_of_map. by exists u.
    + apply (Hlast (f, event, n)). by left.
Qed.

(** C7: in [CartLinesAddForm] and in [useCartLinesAdd], an observed event
    is delivered to [onSuccess] iff its id differs from the last delivered
    id; observing the same fetcher again on a later render delivers
    nothing; and when each event (events have distinct ids) stays on show
    for one or more renders, [onSuccess] is invoked once for each. *)
Theorem onSuccess_once_per_event_id :
  (* CartLinesAddForm *)
  ((∀ f fetcher event c,
      CartLinesAdd.fetcher_data fetcher ≫= CartLinesAdd.data_event = Some event →
      truthy (event_id event) = true →
      (Some (event_id event) ≠ CartLinesAdd.lastEventId c →
       CartLinesAdd.CartLinesAddForm_effect (Some f) fetcher c
       = CartLinesAdd.mkConsumer (Some (event_id event))
           (CartLinesAdd.invoked c ++ [(f, event)]))
      ∧ (Some (event_id event) = CartLinesAdd.lastEventId c →
         CartLinesAdd.CartLinesAddForm_effect (Some f) fetcher c = c))
   ∧ (∀ onSuccess onSuccess' fetcher c,
        CartLinesAdd.CartLinesAddForm_effect onSuccess' fetcher
          (CartLinesAdd.CartLinesAddForm_effect onSuccess fetcher c)
        = CartLinesAdd.CartLinesAddForm_effect onSuccess fetcher c)
   ∧ (∀ shown : list (Callback * LinesAddEvent * nat),
        NoDup (map (λ u, event_id u.1.2) shown) →
        (∀ u, u ∈ shown → truthy (event_id u.1.2) = true) →
        CartLinesAdd.invoked
          (CartLinesAdd.CartLinesAddForm_renders
             (CartLinesAdd.form_renders_of shown) CartLinesAdd.mounted)
        = map fst shown))
  (* useCartLinesAdd *)
  ∧ ((∀ f fetcher event c,
        CartLinesAdd.fetcher_data fetcher ≫= CartLinesAdd.data_event = Some event →
        (Some (event_id event) ≠ CartLinesAdd.lastEventId c →
         CartLinesAdd.useCartLinesAdd_effect f fetcher c
         = CartLinesAdd.mkConsumer (Some (event_id event))
             (CartLinesAdd.invoked c ++ [(f, event)]))
        ∧ (Some (event_id event) = CartLinesAdd.lastEventId c →
           CartLinesAdd.useCartLinesAdd_effect f fetcher c = c))
     ∧ (∀ f f' fetcher c,
          CartLinesAdd.useCartLinesAdd_effect f' fetcher
            (CartLinesAdd.useCartLinesAdd_effect f fetcher c)
          = CartLinesAdd.useCartLinesAdd_effect f fetcher c)
     ∧ (∀ shown : list (Callback * LinesAddEvent * nat),
          NoDup (map (λ u, event_id u.1.2) shown) →
          CartLinesAdd.invoked
            (CartLinesAdd.useCartLinesAdd_renders
               (CartLinesAdd.hook_renders_of shown) CartLinesAdd.mounted)
          = map fst shown)).
Proof.
  split; split_and!.
  - apply form_effect_step.
  - apply form_effect_again.
  - intros shown Hnd Hid.
    by rewrite form_renders_of_invoked.
  - apply hook_effect_step.
  - apply hook_effect_again.
  - intros shown Hnd. by rewrite hook_renders_of_invoked.
Qed.

End Delivery.

Lemma onSuccess_once_per_event_id_witness :
  CartLinesAdd.invoked
    (CartLinesAdd.CartLinesAddForm_renders
       (CartLinesAdd.form_renders_of
          [(tt, Examples.first_event, 2%nat); (tt, Examples.second_event, 0%nat)])
       CartLinesAdd.mounted)
  = map fst [(tt, Examples.first_event, 2%nat); (tt, Examples.second_event, 0%nat)].
Proof.
  apply (proj2 (proj2 (proj1 (@onSuccess_once_per_event_id unit)))).
  - apply (bool_decide_unpack _). vm_compute. exact I.
  - intros u Hu. apply elem_of_cons in Hu as [->|Hu]; [reflexivity|].
    apply list_elem_of_singleton in Hu as ->. reflexivity.
Defined.

(** ** The optimistic lines *)

Lemma optimistic_comparer_spec prevLine line :
  CartLinesAdd.optimistic_comparer prevLine line = true ↔
    ∃ merchandiseId,
      partial_merchandise prevLine ≫= partial_merchandise_id = Some merchandiseId
      ∧ partial_merchandise line ≫= partial_merchandise_id = Some merchandiseId.
Proof.
  unfold CartLinesAdd.optimistic_comparer.
  destruct (partial_merchandise prevLine ≫= partial_merchandise_id) as [p|];
    [destruct (partial_merchandise line ≫= partial_merchandise_id) as [l|]|].
  - rewrite String.eqb_eq. split.
    + intros ->. by exists l.
    + intros (m & ? & ?). congruence.
  - split; [done | intros (m & _ & Hl); discriminate].
  - split; [done | intros (m & Hp & _); discriminate].
Qed.

(** C8: [useOptimisticCartLinesAdding] returns two empty arrays when no
    add is in flight (no [optimisticLines] field); otherwise, with the lines
    in flight parsed, [optimisticLinesNew] is all of them when the confirmed
    [lines] are empty or not an array, and else the added partition of the
    diff between [lines] and the lines in flight under the comparison "same
    merchandise id", in which a line without a merchandise id matches
    nothing.  The hook is a function of its arguments: they are values it
    reads and cannot change. *)
Theorem useOptimisticCartLinesAdding_spec (P : Platform) (diff : diff_t)
    (fetchers : list CartLinesAdd.Fetcher) (lines : option (list PartialCartLine)) :
  LcsDiff diff →
  (CartLinesAdd.optimisticLinesStr P fetchers = None →
   CartLinesAdd.useOptimisticCartLinesAdding P diff fetchers lines
   = Returned (CartLinesAdd.mkOptimistic [] []))
  ∧ (∀ str inFlight,
       CartLinesAdd.optimisticLinesStr P fetchers = Some (FormString str) →
       truthy str = true →
       JSON_parse_cartLines P str = Some inFlight →
       (lines = None ∨ lines = Some [] →
        CartLinesAdd.useOptimisticCartLinesAdding P diff fetchers lines
        = Returned (CartLinesAdd.mkOptimistic inFlight inFlight))
       ∧ (∀ confirmed, lines = Some confirmed → confirmed ≠ [] →
          CartLinesAdd.useOptimisticCartLinesAdding P diff fetchers lines
          = Returned
              (CartLinesAdd.mkOptimistic inFlight
                 (added (diff _ _ confirmed inFlight
                           CartLinesAdd.optimistic_comparer)))))
  ∧ (∀ prevLine line,
       CartLinesAdd.optimistic_comparer prevLine line = true ↔
         ∃ merchandiseId,
           partial_merchandise prevLine ≫= partial_merchandise_id
             = Some merchandiseId
           ∧ partial_merchandise line ≫= partial_merchandise_id
             = Some merchandiseId).
Proof.
  intros Hdiff. split_and!.
  - intros H. unfold CartLinesAdd.useOptimisticCartLinesAdding. by rewrite H.
  - intros str inFlight Hstr Htruthy Hparse.
    unfold CartLinesAdd.useOptimisticCartLinesAdding.
    rewrite Hstr, Htruthy, Hparse. split.
    + intros [-> | ->]; by destruct inFlight.
    + intros [|l ls] -> Hne; [done|].
      destruct inFlight as [|o os]; [|done].
      cbn [length Nat.eqb]. do 2 f_equal.
      destruct (Hdiff _ _ (l :: ls) (@nil PartialCartLine)
                  CartLinesAdd.optimistic_comparer) as [Hs _].
      symmetry. by eapply Script_nil_r.
  - apply optimistic_comparer_spec.
Qed.

Lemma useOptimisticCartLinesAdding_spec_witness :
  CartLinesAdd.useOptimisticCartLinesAdding Examples.platform diff
    [Examples.adding_fetcher] (Some [Examples.confirmedX])
  = Returned
      (CartLinesAdd.mkOptimistic [Examples.optimisticY]
         (added (diff _ _ [Examples.confirmedX] [Examples.optimisticY]
                   CartLinesAdd.optimistic_comparer))).
Proof.
  apply (proj2 (proj1 (proj2
           (useOptimisticCartLinesAdding_spec Examples.platform diff
              [Examples.adding_fetcher] (Some [Examples.confirmedX]) diff_LcsDiff))
           Examples.optimistic_json [Examples.optimisticY]
           eq_refl eq_refl eq_refl)
           [Examples.confirmedX] eq_refl ltac:(discriminate)).
Defined.

(** The optimistic tracker on the spec's two examples. *)
Example optimistic_all_new :
  CartLinesAdd.useOptimisticCartLinesAdding Examples.platform diff
    [Examples.adding_fetcher] (Some [])
  = Returned (CartLinesAdd.mkOptimistic [Examples.optimisticY] [Examples.optimisticY]).
Proof. vm_compute. reflexivity. Qed.

Example optimistic_only_new :
  added (diff _ _ [Examples.confirmedX] [Examples.confirmedX; Examples.optimisticY]
           CartLinesAdd.optimistic_comparer)
  = [Examples.optimisticY].
Proof. vm_compute. reflexivity. Qed.

(** * Further properties *)

(** ** More on the line diff *)

Lemma comparer_refl l : comparer l l = true.
Proof. apply comparer_spec. split_and!; [done..|lia]. Qed.

Lemma Script_all_kept {T U : Type} (compareFunc : T → U → bool) a b :
  Forall2 (λ x y, compareFunc x y = true) a b → Script compareFunc a b [] [].
Proof. induction 1; by constructor. Qed.

Lemma filter_not_includes_nil (ls : list CartLineInput) :
  List.filter (λ l, negb (includes [] (input_merchandiseId l))) ls = ls.
Proof.
  induction ls as [|l ls IH]; [done|].
  cbn [List.filter]. unfold includes at 1. cbn [existsb negb]. by rewrite IH.
Qed.

(** A mutation after which every line still stands where it stood, with its
    line id and merchandise id and a quantity that did not grow, adds
    nothing: every requested line is reported as not added.  So it is when
    the snapshot did not change at all. *)
Theorem diffLines_nothing_grew (diff : diff_t) (props : DiffLinesProps) :
  LcsDiff diff →
  (Forall2 (λ prevLine line,
              id prevLine = id line
              ∧ merchandiseId prevLine = merchandiseId line
              ∧ quantity line ≤ quantity prevLine)
     (diffingLines (prevLines props)) (diffingLines (currentLines props)) →
   diffLines diff props = mkDiffLinesResult [] (addingLines props))
  ∧ (diffingLines (prevLines props) = diffingLines (currentLines props) →
     diffLines diff props = mkDiffLinesResult [] (addingLines props)).
Proof.
  intros Hdiff.
  assert (Forall2 (λ prevLine line, comparer prevLine line = true)
            (diffingLines (prevLines props)) (diffingLines (currentLines props)) →
          diffLines diff props = mkDiffLinesResult [] (addingLines props)) as Hkept.
  { intros Hall. apply Script_all_kept in Hall.
    destruct (Hdiff _ _ (diffingLines (prevLines props))
                (diffingLines (currentLines props)) comparer) as [_ Hmin].
    specialize (Hmin _ _ Hall). unfold diffLines.
    destruct (added (diff _ _ _ _ comparer)) as [|l ls]; [|simpl in Hmin; lia].
    cbn [map]. by rewrite filter_not_includes_nil. }
  split.
  - intros Hall. apply Hkept. eapply Forall2_impl; [done|].
    intros p l H. by apply comparer_spec.
  - intros E. apply Hkept. rewrite E. apply Forall_Forall2_diag, Forall_forall.
    intros l _. apply comparer_refl.
Qed.

Lemma diffLines_nothing_grew_witness :
  diffLines diff Examples.unchanged
  = mkDiffLinesResult [] (addingLines Examples.unchanged).
Proof.
  apply (proj2 (diffLines_nothing_grew diff Examples.unchanged diff_LcsDiff)).
  reflexivity.
Defined.

(** When line ids are unique within each snapshot and the lines the
    snapshots share keep their order, the lines added are exactly the lines
    of the current snapshot, in its order, that have no line in the
    previous one with their line id and merchandise id and an equal or
    greater quantity: the new lines and the lines that grew. *)
Theorem diffLines_added_exact (diff : diff_t) (props : DiffLinesProps) :
  LcsDiff diff →
  NoDup (map id (diffingLines (prevLines props))) →
  NoDup (map id (diffingLines (currentLines props))) →
  same_order (diffingLines (prevLines props)) (diffingLines (currentLines props)) →
  linesAdded (diffLines diff props)
    = List.filter (unmatched (diffingLines (prevLines props)))
        (diffingLines (currentLines props))
  ∧ ∀ line,
      line ∈ linesAdded (diffLines diff props) ↔
        line ∈ diffingLines (currentLines props)
        ∧ ∀ prevLine, prevLine ∈ diffingLines (prevLines props) →
            ¬ (id prevLine = id line
               ∧ merchandiseId prevLine = merchandiseId line
               ∧ quantity line ≤ quantity prevLine).
Proof.
  intros Hdiff Hp Hn Hso.
  assert (linesAdded (diffLines diff props)
          = List.filter (unmatched (diffingLines (prevLines props)))
              (diffingLines (currentLines props))) as E.
  { unfold diffLines. cbn [linesAdded]. by apply same_order_added. }
  split; [done|]. intros line. rewrite E.
  rewrite list_elem_of_In, filter_In, <- list_elem_of_In, unmatched_spec.
  split; intros [Hin Hun]; (split; [done|]); intros p Hp'.
  - by apply comparer_false, Hun.
  - by apply comparer_false, Hun.
Qed.

Lemma diffLines_added_exact_witness :
  linesAdded (diffLines diff Examples.appended)
  = List.filter (unmatched (diffingLines (prevLines Examples.appended)))
      (diffingLines (currentLines Examples.appended)).
Proof.
  apply (proj1 (diffLines_added_exact diff Examples.appended diff_LcsDiff
                  ltac:(apply (bool_decide_unpack _); vm_compute; exact I)
                  ltac:(apply (bool_decide_unpack _); vm_compute; exact I)
                  eq_refl)).
Defined.

(** ** The message of a line that was not added *)

Lemma string_app_cons (x : ascii) (a b : string) :
  String x a ++ b = String x (a ++ b).
Proof. reflexivity. Qed.

Lemma string_app_assoc (a b c : string) : (a ++ b) ++ c = a ++ (b ++ c).
Proof.
  induction a as [|x a IH]; [done|]. rewrite !string_app_cons. by f_equal.
Qed.

Lemma string_app_nil_r (a : string) : a ++ "" = a.
Proof.
  induction a as [|x a IH]; [done|]. rewrite string_app_cons. by f_equal.
Qed.

Lemma has_slash_app (a b : string) :
  has_slash (a ++ b) = has_slash a || has_slash b.
Proof.
  induction a as [|x a IH]; [done|].
  rewrite string_app_cons. cbn [has_slash]. by rewrite IH, orb_assoc.
Qed.

Lemma split_pop_segment (s segment : string) :
  has_slash segment = false →
  has_slash (split_pop s segment) = false
  ∧ (segment ++ s = split_pop s segment
     ∨ ∃ before, segment ++ s = before ++ "/" ++ split_pop s segment).
Proof.
  revert segment. induction s as [|c s IH]; intros segment Hseg.
  - cbn [split_pop]. split; [done|]. left. apply string_app_nil_r.
  - cbn [split_pop]. destruct (Ascii.eqb c "/") eqn:Hc.
    + apply Ascii.eqb_eq in Hc as ->.
      destruct (IH "" eq_refl) as [Hno E]. split; [done|]. right.
      change ("" ++ s) with s in E.
      remember (split_pop s "") as r eqn:Er. clear Er.
      destruct E as [E|[before E]]; rewrite E.
      * by exists segment.
      * exists (segment ++ "/" ++ before). by rewrite string_app_assoc.
    + assert ((segment ++ String c "") ++ s = segment ++ String c s) as Heq.
      { by rewrite string_app_assoc. }
      destruct (IH (segment ++ String c "")) as [Hno E].
      { rewrite has_slash_app, Hseg. cbn [has_slash orb]. by rewrite Hc. }
      split; [done|]. rewrite <- Heq. exact E.
Qed.

(** [merchandiseId.split('/').pop()], the message of a [LINE_NOT_ADDED]
    error, holds no slash and is what the merchandise id ends with: the
    whole id when it has no slash, else what follows its last slash. *)
Theorem split_pop_last_segment (merchandiseId : string) :
  has_slash (split_pop merchandiseId "") = false
  ∧ ((has_slash merchandiseId = false ∧ split_pop merchandiseId "" = merchandiseId)
     ∨ ∃ before,
         merchandiseId = before ++ "/" ++ split_pop merchandiseId "").
Proof.
  destruct (split_pop_segment merchandiseId "" eq_refl) as [Hno [E|E]];
    (split; [done|]).
  - left. change ("" ++ merchandiseId) with merchandiseId in E.
    split; [by rewrite <- E in Hno | done].
  - by right.
Qed.

(** ** The event and the errors of [instrumentEvent] *)

Lemma map_nil_iff {A B : Type} (f : A → B) (l : list A) : map f l = [] ↔ l = [].
Proof. by destruct l. Qed.

(** [instrumentEvent] draws one UUID, the id of its [lines_add] event, and
    touches nothing else; the event carries the lines added.  It reports no
    error exactly when the merchandise id of every requested line is among
    those of the lines added; otherwise one error per line left out, in the
    order requested, each with the code [LINE_NOT_ADDED] and the last
    segment of that line's merchandise id as its message. *)
Theorem instrumentEvent_reports (P : Platform) (diff : diff_t)
    (props : DiffLinesProps) (w : World) :
  ∃ errors,
    CartLinesAdd.instrumentEvent P diff props w
    = (Returned
         (mkEvent "lines_add" (uuid P (drawn w)) (linesAdded (diffLines diff props)),
          errors),
       mkWorld (session w) (network w) (S (drawn w)))
    ∧ (errors = [] ↔
       ∀ line, line ∈ addingLines props →
         input_merchandiseId line
           ∈ map merchandiseId (linesAdded (diffLines diff props)))
    ∧ map error_code errors
      = map (λ _, Some "LINE_NOT_ADDED") (linesNotAdded (diffLines diff props))
    ∧ map error_message errors
      = map (λ line, Some (split_pop (input_merchandiseId line) ""))
          (linesNotAdded (diffLines diff props)).
Proof.
  eexists. split; [reflexivity|]. split_and!.
  - rewrite map_nil_iff.
    unfold diffLines. cbn [linesNotAdded linesAdded].
    rewrite filter_not_includes. split.
    + intros Hnil line Hline.
      destruct (decide (input_merchandiseId line
                          ∈ map merchandiseId
                              (added (diff _ _ (diffingLines (prevLines props))
                                        (diffingLines (currentLines props)) comparer))))
        as [Hin|Hout]; [done|].
      assert (line ∈ @nil CartLineInput) as Habs; [|by apply elem_of_nil in Habs].
      rewrite <- Hnil. by apply list_elem_of_filter.
    + intros Hall. induction (addingLines props) as [|line ls IH]; [done|].
      rewrite filter_cons_False.
      * apply IH. intros l Hl. apply Hall. by right.
      * intros Hout. apply Hout, Hall. by left.
  - by rewrite map_map.
  - by rewrite map_map.
Qed.

(** ** What the add-lines action does to the world *)

Ltac run_action :=
  unfold CartLinesAdd.action, CartLinesAdd.cartCreate, CartLinesAdd.getCartLines,
    CartLinesAdd.cartLinesAdd, CartLinesAdd.linesAddResponse,
    CartLinesAdd.instrumentEvent; run.

Lemma length_nonempty {A : Type} (l : list A) :
  negb (length l =? 0)%nat = true → l ≠ [].
Proof. by destruct l. Qed.

(** Whatever the add-lines action is given and however it ends, it writes
    no session key but [cartId]; with no cart id in the session it sends
    nothing or the one create, for non-empty lines; with a cart id in the
    session it leaves the session as it is and sends nothing, or the query
    of that cart, or the query and then the add of non-empty lines to that
    cart: never a create, never the add before the query. *)
Theorem action_world_discipline (P : Platform) (diff : diff_t)
    (request : Request) (context : HydrogenContext) (w : World)
    (r : Outcome Response) (w' : World) :
  CartLinesAdd.action P diff request context w = (r, w') →
  (∀ key, key ≠ "cartId" → session w' !! key = session w !! key)
  ∧ (truthy_value (session w !! "cartId") = false →
     network w' = network w
     ∨ ∃ lines, lines ≠ []
         ∧ network w'
           = (network w ++ [CREATE_CART_MUTATION (mkCartInput (Some lines) None)])%list)
  ∧ (∀ cartId, session w !! "cartId" = Some cartId → truthy cartId = true →
       session w' = session w
       ∧ (network w' = network w
          ∨ network w' = (network w ++ [CART_LINES_QUERY cartId])%list
          ∨ ∃ lines, lines ≠ []
              ∧ network w'
                = (network w ++ [CART_LINES_QUERY cartId;
                                 ADD_LINES_MUTATION cartId lines])%list)).
Proof.
  run_action. intros H.
  repeat (case_match; run_all; simplify_eq).
  all: cbn [session network drawn].
  all: split_and!; [intros key Hkey; try done; by rewrite lookup_insert_ne
                   | intros Hnone | intros cartId Hsome Htruthy ].
  all: try (rewrite Hnone in *; discriminate).
  all: try (match goal with
            | H : negb (truthy_value (session _ !! "cartId")) = true |- _ =>
                rewrite Hsome in H; cbn [truthy_value] in H;
                rewrite Htruthy in H; discriminate
            end).
  all: try (first [ by left
                  | right; eexists; split; [by apply length_nonempty | done] ]).
  all: rewrite ?Hsome; cbn [default from_option Datatypes.id]; (split; [done|]).
  all: first [ by left
             | by (right; left)
             | right; right; eexists;
               split; [by apply length_nonempty | by rewrite <- app_assoc] ].
Qed.


(** Without a storefront client in the context the add-lines action always
    throws, and before it has touched the session, the network or the UUID
    supply. *)
Theorem action_without_storefront (P : Platform) (diff : diff_t)
    (request : Request) (context : HydrogenContext) (w : World) :
  storefront context = None →
  ∃ e, CartLinesAdd.action P diff request context w = (Thrown e, w).
Proof.
  intros Hsf. run_action. rewrite Hsf.
  repeat (case_match; run_all; simplify_eq); by eexists.
Qed.

Lemma diffLines_no_prev (diff : diff_t) (props : DiffLinesProps) :
  LcsDiff diff →
  diffingLines (prevLines props) = [] →
  linesAdded (diffLines diff props) = diffingLines (currentLines props).
Proof.
  intros Hdiff Hnil. destruct (diffLines_Script diff Hdiff props) as [r Hs].
  eapply Script_nothing_kept; [done|].
  intros p l Hp. rewrite Hnil in Hp. by apply elem_of_nil in Hp.
Qed.

(** A first add that succeeds (no cart id in the session, a cart and no
    error from the create, no local [redirectTo]): the event lists every
    line of the new cart, an error is made for each requested line whose
    merchandise id the new cart does not hold, the cart id is in the
    session and the response carries the [Set-Cookie] header. *)
Theorem action_create_reports_cart (P : Platform) (diff : diff_t)
    (request : Request) (context : HydrogenContext) (sf : Storefront) (w : World)
    (v : FormDataEntryValue) (lines : list CartLineInput) (payload : CartPayload)
    (c : Cart) :
  LcsDiff diff →
  storefront context = Some sf →
  FormData_get "lines" (request_formData request) = Some v →
  truthy_entry (Some v) = true →
  JSON_parse_lines P (String_ v) = Some lines →
  lines ≠ [] →
  truthy_value (session w !! "cartId") = false →
  respond sf (network w) (CREATE_CART_MUTATION (mkCartInput (Some lines) None))
    = Some payload →
  has_errors (errors payload) = false →
  cart payload = Some c →
  local_redirect P (request_formData request) = None →
  CartLinesAdd.action P diff request context w
  = (Returned
       (json
          (EventBody
             (mkEvent "lines_add" (uuid P (drawn w)) (diffingLines (cart_lines c)))
             (map (λ line,
                     mkUserError (Some "LINE_NOT_ADDED") None
                       (Some (split_pop (input_merchandiseId line) "")))
                (List.filter
                   (λ line,
                      negb (includes (map merchandiseId (diffingLines (cart_lines c)))
                              (input_merchandiseId line)))
                   lines)))
          200
          {["Set-Cookie" := commit P (<["cartId" := cart_id c]> (session w))]}),
     mkWorld (<["cartId" := cart_id c]> (session w))
       (network w ++ [CREATE_CART_MUTATION (mkCartInput (Some lines) None)])
       (S (drawn w))).
Proof.
  intros Hdiff Hsf Hget Htruthy Hparse Hlines Hcart Hrespond Herrors Hc Hredirect.
  unfold CartLinesAdd.action, CartLinesAdd.cartCreate. run.
  rewrite Hget, Htruthy, Hparse. run.
  rewrite (nonempty_length _ Hlines), Hcart, Hsf. run.
  rewrite Hrespond. run. rewrite Herrors, Hc. run.
  unfold CartLinesAdd.linesAddResponse, CartLinesAdd.instrumentEvent.
  rewrite Hredirect. run.
  pose proof (diffLines_no_prev diff
                (mkDiffLinesProps lines (Some (mkConnection None)) (cart_lines c))
                Hdiff eq_refl) as Hall.
  unfold diffLines in *. cbn [linesAdded linesNotAdded currentLines prevLines
                               addingLines option_bind] in *.
  by rewrite Hall.
Qed.

Lemma action_create_reports_cart_witness :
  CartLinesAdd.action Examples.platform diff Examples.add_request
    (mkContext (Some Examples.accepting)) Examples.first_visit
  = (Returned
       (json
          (EventBody
             (mkEvent "lines_add" (uuid Examples.platform (drawn Examples.first_visit))
                (diffingLines (cart_lines Examples.cartX)))
             (map (λ line,
                     mkUserError (Some "LINE_NOT_ADDED") None
                       (Some (split_pop (input_merchandiseId line) "")))
                (List.filter
                   (λ line,
                      negb (includes
                              (map merchandiseId (diffingLines (cart_lines Examples.cartX)))
                              (input_merchandiseId line)))
                   [Examples.requested Examples.variantX 1])))
          200
          {["Set-Cookie" :=
              commit Examples.platform
                (<["cartId" := cart_id Examples.cartX]> (session Examples.first_visit))]}),
     mkWorld (<["cartId" := cart_id Examples.cartX]> (session Examples.first_visit))
       (network Examples.first_visit
          ++ [CREATE_CART_MUTATION
                (mkCartInput (Some [Examples.requested Examples.variantX 1]) None)])
       (S (drawn Examples.first_visit))).
Proof.
  apply (action_create_reports_cart Examples.platform diff Examples.add_request
           (mkContext (Some Examples.accepting)) Examples.accepting
           Examples.first_visit (FormString Examples.lines_json)
           [Examples.requested Examples.variantX 1]
           (mkPayload (Some Examples.cartX) (Some [])) Examples.cartX
           diff_LcsDiff eq_refl eq_refl eq_refl eq_refl ltac:(discriminate)
           eq_refl eq_refl eq_refl eq_refl eq_refl).
Defined.

(** An add to the cart of the session that succeeds (a cart read before,
    no error from the add, no local [redirectTo]): when the add returns no
    cart the action throws once both calls are sent; else the event and the
    errors are those of the diff between the lines read before and the
    lines returned (no lines, if the cart read had none), the session is
    left alone and the response carries no header. *)
Theorem action_add_reports_diff (P : Platform) (diff : diff_t)
    (request : Request) (context : HydrogenContext) (sf : Storefront) (w : World)
    (v : FormDataEntryValue) (lines : list CartLineInput) (payload : CartPayload)
    (cartId : string) (prevCart : Cart) :
  storefront context = Some sf →
  FormData_get "lines" (request_formData request) = Some v →
  truthy_entry (Some v) = true →
  JSON_parse_lines P (String_ v) = Some lines →
  lines ≠ [] →
  session w !! "cartId" = Some cartId → truthy cartId = true →
  respond sf (network w) (CART_LINES_QUERY cartId) ≫= cart = Some prevCart →
  respond sf (network w ++ [CART_LINES_QUERY cartId])
    (ADD_LINES_MUTATION cartId lines) = Some payload →
  has_errors (errors payload) = false →
  local_redirect P (request_formData request) = None →
  (cart payload = None →
   CartLinesAdd.action P diff request context w
   = (Thrown TypeError,
      mkWorld (session w)
        (network w ++ [CART_LINES_QUERY cartId; ADD_LINES_MUTATION cartId lines])
        (drawn w)))
  ∧ (∀ c, cart payload = Some c →
       CartLinesAdd.action P diff request context w
       = (Returned
            (json
               (EventBody
                  (mkEvent "lines_add" (uuid P (drawn w))
                     (added (diff _ _ (diffingLines (cart_lines prevCart))
                               (diffingLines (cart_lines c)) comparer)))
                  (map (λ line,
                          mkUserError (Some "LINE_NOT_ADDED") None
                            (Some (split_pop (input_merchandiseId line) "")))
                     (List.filter
                        (λ line,
                           negb (includes
                                   (map merchandiseId
                                      (added (diff _ _
                                                (diffingLines (cart_lines prevCart))
                                                (diffingLines (cart_lines c))
                                                comparer)))
                                   (input_merchandiseId line)))
                        lines)))
               200 ∅),
          mkWorld (session w)
            (network w ++ [CART_LINES_QUERY cartId; ADD_LINES_MUTATION cartId lines])
            (S (drawn w)))).
Proof.
  intros Hsf Hget Htruthy Hparse Hlines Hcart Hid Hquery Hrespond Herrors Hredirect.
  unfold mbind in Hquery.
  split; [intros Hc | intros c Hc].
  all: unfold CartLinesAdd.action, CartLinesAdd.getCartLines,
         CartLinesAdd.cartLinesAdd; run.
  all: rewrite Hget, Htruthy, Hparse; run.
  all: rewrite (nonempty_length _ Hlines), Hcart, Hsf; cbn [truthy_value].
  all: rewrite Hid; run; rewrite Hquery; run; rewrite Hrespond; run.
  all: rewrite Herrors, Hc.
  all: unfold CartLinesAdd.linesAddResponse, CartLinesAdd.instrumentEvent.
  all: rewrite Hredirect; run.
  - by rewrite <- app_assoc.
  - rewrite <- app_assoc. unfold diffLines.
    cbn [linesAdded linesNotAdded currentLines prevLines addingLines option_bind].
    by destruct (cart_lines prevCart).
Qed.

Lemma action_add_reports_diff_witness :
  CartLinesAdd.action Examples.platform diff Examples.add_request
    (mkContext (Some Examples.growing)) Examples.returning
  = (Returned
       (json
          (EventBody
             (mkEvent "lines_add" (uuid Examples.platform (drawn Examples.returning))
                (added (diff _ _ (diffingLines (cart_lines Examples.cartX))
                          (diffingLines (cart_lines Examples.cartXX)) comparer)))
             (map (λ line,
                     mkUserError (Some "LINE_NOT_ADDED") None
                       (Some (split_pop (input_merchandiseId line) "")))
                (List.filter
                   (λ line,
                      negb (includes
                              (map merchandiseId
                                 (added (diff _ _
                                           (diffingLines (cart_lines Examples.cartX))
                                           (diffingLines (cart_lines Examples.cartXX))
                                           comparer)))
                              (input_merchandiseId line)))
                   [Examples.requested Examples.variantX 1])))
          200 ∅),
     mkWorld (session Examples.returning)
       (network Examples.returning
          ++ [CART_LINES_QUERY "gid://shopify/Cart/1";
              ADD_LINES_MUTATION "gid://shopify/Cart/1"
                [Examples.requested Examples.variantX 1]])
       (S (drawn Examples.returning))).
Proof.
  apply (proj2 (action_add_reports_diff Examples.platform diff Examples.add_request
                  (mkContext (Some Examples.growing)) Examples.growing
                  Examples.returning (FormString Examples.lines_json)
                  [Examples.requested Examples.variantX 1]
                  (mkPayload (Some Examples.cartXX) (Some []))
                  "gid://shopify/Cart/1" Examples.cartX
                  eq_refl eq_refl eq_refl eq_refl ltac:(discriminate)
                  eq_refl eq_refl eq_refl eq_refl eq_refl eq_refl)
           Examples.cartXX eq_refl).
Defined.

Lemma action_without_storefront_witness :
  ∃ e, CartLinesAdd.action Examples.platform diff Examples.add_request
         (mkContext None) Examples.returning
       = (Thrown e, Examples.returning).
Proof.
  apply (action_without_storefront Examples.platform diff Examples.add_request
           (mkContext None) Examples.returning eq_refl).
Defined.

Lemma action_world_discipline_witness :
  session
    (mkWorld {["cartId" := "gid://shopify/Cart/1"]}
       [CART_LINES_QUERY "gid://shopify/Cart/1";
        ADD_LINES_MUTATION "gid://shopify/Cart/1"
          [Examples.requested Examples.variantX 1]]
       1)
  = session Examples.returning
  ∧ (network
       (mkWorld {["cartId" := "gid://shopify/Cart/1"]}
          [CART_LINES_QUERY "gid://shopify/Cart/1";
           ADD_LINES_MUTATION "gid://shopify/Cart/1"
             [Examples.requested Examples.variantX 1]]
          1)
     = network Examples.returning
     ∨ network
         (mkWorld {["cartId" := "gid://shopify/Cart/1"]}
            [CART_LINES_QUERY "gid://shopify/Cart/1";
             ADD_LINES_MUTATION "gid://shopify/Cart/1"
               [Examples.requested Examples.variantX 1]]
            1)
       = (network Examples.returning ++ [CART_LINES_QUERY "gid://shopify/Cart/1"])%list
     ∨ ∃ lines, lines ≠ []
         ∧ network
             (mkWorld {["cartId" := "gid://shopify/Cart/1"]}
                [CART_LINES_QUERY "gid://shopify/Cart/1";
                 ADD_LINES_MUTATION "gid://shopify/Cart/1"
                   [Examples.requested Examples.variantX 1]]
                1)
           = (network Examples.returning
                ++ [CART_LINES_QUERY "gid://shopify/Cart/1";
                    ADD_LINES_MUTATION "gid://shopify/Cart/1" lines])%list).
Proof.
  apply (proj2 (proj2
           (action_world_discipline Examples.platform diff Examples.add_request
              (mkContext (Some Examples.growing)) Examples.returning _ _
              action_add_more))
           "gid://shopify/Cart/1" eq_refl eq_refl).
Defined.

(** ** What the cart action does to the world *)

Ltac run_cart_cases :=
  unfold CartRoute.action, CartRoute.json_field, CartRoute.persist_cart,
    CartRoute.cartCreate, CartRoute.cartAdd, CartRoute.cartRemove,
    CartRoute.cartUpdate, CartRoute.cartDiscountCodesUpdate,
    CartRoute.cartUpdateBuyerIdentity, CartRoute.mutation; run;
  intros;
  repeat (case_match; run_all; simplify_eq).

(** Whenever the cart action returns a response, a storefront client was
    there, exactly one call went to the API, and the response is the JSON of
    the cart and the errors of that call's answer: also under a local
    [redirectTo], which only turns the status from 200 into 303 and sets the
    [Location] header. *)
Theorem cart_action_response (P : Platform) (request : Request)
    (context : HydrogenContext) (w : World) (response : Response) (w' : World) :
  CartRoute.action P request context w = (Returned response, w') →
  ∃ sf call payload headers,
    storefront context = Some sf
    ∧ network w' = (network w ++ [call])%list
    ∧ respond sf (network w) call = Some payload
    ∧ match local_redirect P (request_formData request) with
      | Some redirectTo =>
          response = json (CartBody (cart payload) (errors payload)) 303 headers
          ∧ headers !! "Location" = Some redirectTo
      | None =>
          response = json (CartBody (cart payload) (errors payload)) 200 headers
          ∧ headers !! "Location" = None
      end.
Proof.
  run_cart_cases.
  all: do 4 eexists; split_and!; [done|done|done|..].
  all: try match goal with
           | |- json _ _ _ = _ =>
               repeat match goal with
                      | H : cart _ = Some _ |- _ => rewrite H
                      end;
               reflexivity
           end.
  all: rewrite ?lookup_insert_eq, ?lookup_insert_ne, ?lookup_empty by done; done.
Qed.

(** Whatever the cart action is given and however it ends, it draws no
    UUID, writes no session key but [cartId] and sends at most one call.
    Save for an update of the buyer identity and for an add without a cart
    id in the session, it leaves the session as it is and sets no
    [Set-Cookie] header. *)
Theorem cart_action_world_discipline (P : Platform) (request : Request)
    (context : HydrogenContext) (w : World) (r : Outcome Response) (w' : World) :
  CartRoute.action P request context w = (r, w') →
  drawn w' = drawn w
  ∧ (∀ key, key ≠ "cartId" → session w' !! key = session w !! key)
  ∧ (network w' = network w ∨ ∃ call, network w' = (network w ++ [call])%list)
  ∧ (FormData_get "cartAction" (request_formData request) ≫= CartRoute.switch_case
       ≠ Some CartRoute.UPDATE_BUYER_IDENTITY →
     (FormData_get "cartAction" (request_formData request) ≫= CartRoute.switch_case
        = Some CartRoute.ADD_TO_CART →
      truthy_value (session w !! "cartId") = true) →
     session w' = session w
     ∧ ∀ response, r = Returned response →
         response_headers response !! "Set-Cookie" = None).
Proof.
  run_cart_cases.
  all: cbn [session network drawn].
  all: split_and!; [done
                   | intros key Hkey; try done; by rewrite lookup_insert_ne
                   | first [by left | right; by eexists]
                   | intros Hnot Hadd ].
  all: unfold mbind in *.
  all: try congruence.
  all: try (match goal with
            | H : negb (truthy_value _) = true |- _ =>
                rewrite Hadd in H by done; discriminate
            end).
  all: split; [done|]; intros response [= <-]; cbn [response_headers].
  all: rewrite ?lookup_insert_ne, ?lookup_empty by done; done.
Qed.

(** An update of the buyer identity by the cart action, with the buyer
    identity of the form (an empty one when the field is missing): the call
    sent is the update of the session's cart when the session holds a cart
    id, and else a create with the buyer identity and no lines.  When the
    answer holds no cart the action throws, the call being sent; else the
    returned cart's id is written to the session, over the one it held, and
    the response carries the [Set-Cookie] header of the session so
    written. *)
Theorem cart_action_buyer_identity (P : Platform) (request : Request)
    (context : HydrogenContext) (sf : Storefront) (w : World)
    (buyerIdentity : CartBuyerIdentityInput) (payload : CartPayload) :
  storefront context = Some sf →
  FormData_get "cartAction" (request_formData request)
    = Some (FormString "UPDATE_BUYER_IDENTITY") →
  CartRoute.json_field (JSON_parse_buyerIdentity P)
    (mkBuyerIdentity None None None None) "buyerIdentity"
    (request_formData request) w = (Returned buyerIdentity, w) →
  respond sf (network w)
    (match session w !! "cartId" with
     | Some cartId =>
         if truthy cartId then BUYER_IDENTITY_UPDATE_MUTATION cartId buyerIdentity
         else CREATE_CART_MUTATION (mkCartInput None (Some buyerIdentity))
     | None => CREATE_CART_MUTATION (mkCartInput None (Some buyerIdentity))
     end) = Some payload →
  (cart payload = None →
   ∃ call, CartRoute.action P request context w
           = (Thrown TypeError,
              mkWorld (session w) (network w ++ [call]) (drawn w)))
  ∧ (∀ c, cart payload = Some c →
       ∃ response w',
         CartRoute.action P request context w = (Returned response, w')
         ∧ session w' = <["cartId" := cart_id c]> (session w)
         ∧ response_headers response !! "Set-Cookie"
           = Some (commit P (session w'))).
Proof.
  intros Hsf Htag Hfield Hrespond.
  split; [intros Hc | intros c Hc].
  all: run_switch; rewrite Hfield, Hsf; run.
  all: destruct (session w !! "cartId") as [cartId|] eqn:Hcart;
         cbn [truthy_value]; [destruct (truthy cartId)|]; run.
  all: rewrite Hrespond; run; rewrite Hc; run.
  all: try by eexists.
  all: destruct (local_redirect P (request_formData request)); run.
  all: do 2 eexists; split; [done|]; cbn [session response_headers];
         split; [done|].
  all: rewrite ?lookup_insert_ne by done; by rewrite lookup_insert_eq.
Qed.

Example cart_remove_with_cart_id :
  CartRoute.action Examples.platform Examples.cart_remove_request
    (mkContext (Some Examples.accepting)) Examples.returning
  = (Returned (json (CartBody (Some Examples.cartX) (Some [])) 200 ∅),
     mkWorld {["cartId" := "gid://shopify/Cart/1"]}
       [REMOVE_LINES_MUTATION (Some "gid://shopify/Cart/1")
          ["gid://shopify/CartLine/1"]] 0).
Proof. vm_compute. reflexivity. Qed.

Lemma cart_action_response_witness :
  ∃ sf call payload headers,
    storefront (mkContext (Some Examples.accepting)) = Some sf
    ∧ network
        (mkWorld {["cartId" := "gid://shopify/Cart/1"]}
           [REMOVE_LINES_MUTATION (Some "gid://shopify/Cart/1")
              ["gid://shopify/CartLine/1"]] 0)
      = (network Examples.returning ++ [call])%list
    ∧ respond sf (network Examples.returning) call = Some payload
    ∧ match local_redirect Examples.platform
              (request_formData Examples.cart_remove_request) with
      | Some redirectTo =>
          json (CartBody (Some Examples.cartX) (Some [])) 200 ∅
          = json (CartBody (cart payload) (errors payload)) 303 headers
          ∧ headers !! "Location" = Some redirectTo
      | None =>
          json (CartBody (Some Examples.cartX) (Some [])) 200 ∅
          = json (CartBody (cart payload) (errors payload)) 200 headers
          ∧ headers !! "Location" = None
      end.
Proof.
  exact (cart_action_response Examples.platform Examples.cart_remove_request
           (mkContext (Some Examples.accepting)) Examples.returning _ _
           cart_remove_with_cart_id).
Defined.

Lemma cart_action_world_discipline_witness :
  session
    (mkWorld {["cartId" := "gid://shopify/Cart/1"]}
       [REMOVE_LINES_MUTATION (Some "gid://shopify/Cart/1")
          ["gid://shopify/CartLine/1"]] 0)
  = session Examples.returning
  ∧ ∀ response,
      Returned (json (CartBody (Some Examples.cartX) (Some [])) 200 ∅)
      = Returned response →
      response_headers response !! "Set-Cookie" = None.
Proof.
  apply (proj2 (proj2 (proj2
           (cart_action_world_discipline Examples.platform
              Examples.cart_remove_request (mkContext (Some Examples.accepting))
              Examples.returning _ _ cart_remove_with_cart_id)))).
  - vm_compute. discriminate.
  - vm_compute. discriminate.
Defined.

Lemma cart_action_buyer_identity_witness :
  ∃ response w',
    CartRoute.action Examples.platform Examples.buyer_request
      (mkContext (Some Examples.accepting)) Examples.first_visit
    = (Returned response, w')
    ∧ session w' = <["cartId" := cart_id Examples.cartX]> (session Examples.first_visit)
    ∧ response_headers response !! "Set-Cookie"
      = Some (commit Examples.platform (session w')).
Proof.
  apply (proj2 (cart_action_buyer_identity Examples.platform Examples.buyer_request
                  (mkContext (Some Examples.accepting)) Examples.accepting
                  Examples.first_visit (mkBuyerIdentity None None None None)
                  (mkPayload (Some Examples.cartX) (Some []))
                  eq_refl eq_refl eq_refl eq_refl)
           Examples.cartX eq_refl).
Defined.

(** ** The form, the hooks and the action together *)

Lemma FormData_get_cons_eq name v (formData : FormData) :
  FormData_get name ((name, v) :: formData) = Some v.
Proof. unfold FormData_get. cbn. by rewrite String.eqb_refl. Qed.

Lemma FormData_get_cons_ne name name' v (formData : FormData) :
  name' ≠ name →
  FormData_get name ((name', v) :: formData) = FormData_get name formData.
Proof.
  intros Hne. unfold FormData_get. cbn.
  by rewrite (proj2 (String.eqb_neq name' name) Hne).
Qed.

Lemma useCartLinesAddingFetcher_first (P : Platform) fetcher rest submission :
  CartLinesAdd.fetcher_submission fetcher = Some submission →
  CartLinesAdd.submission_action submission
    = usePrefixPathWithLocale P CartLinesAdd.ACTION_PATH →
  CartLinesAdd.useCartLinesAddingFetcher P (fetcher :: rest) = Some fetcher.
Proof.
  intros Hsub Haction. unfold CartLinesAdd.useCartLinesAddingFetcher.
  cbn [find]. by rewrite Hsub, Haction, String.eqb_refl.
Qed.

Lemma cartLinesAdd_submission (P : Platform) (S : CartLinesAddHooks.Stringify)
    lines optimisticLines :
  CartLinesAddHooks.cartLinesAdd P S (Some lines) (Some optimisticLines)
  = CartLinesAdd.mkSubmission (usePrefixPathWithLocale P CartLinesAdd.ACTION_PATH)
      (Some [("lines", FormString (CartLinesAddHooks.JSON_stringify_lines S lines));
             ("optimisticLines",
              FormString (CartLinesAddHooks.JSON_stringify_cartLines S optimisticLines))]).
Proof. reflexivity. Qed.

(** What [useCartLinesAdd] submits comes back: while the fetcher holding
    the submission is the one found adding lines (it is, when it comes
    first among the fetchers), [useCartLinesAdding] gives the lines
    submitted and [useOptimisticCartLinesAdding] the optimistic lines
    submitted, and the action, given the submitted form data, reads the
    same lines and finds no [redirectTo].  The arrays are written with
    [JSON.stringify] and read with [JSON.parse]. *)
Theorem cartLinesAdd_round_trip (P : Platform) (S : CartLinesAddHooks.Stringify)
    (diff : diff_t) (lines : list CartLineInput)
    (optimisticLines : list PartialCartLine)
    (fetchers : list CartLinesAdd.Fetcher) (fetcher : CartLinesAdd.Fetcher) :
  JSON_parse_lines P (CartLinesAddHooks.JSON_stringify_lines S lines) = Some lines →
  truthy (CartLinesAddHooks.JSON_stringify_lines S lines) = true →
  JSON_parse_cartLines P (CartLinesAddHooks.JSON_stringify_cartLines S optimisticLines)
    = Some optimisticLines →
  truthy (CartLinesAddHooks.JSON_stringify_cartLines S optimisticLines) = true →
  CartLinesAdd.fetcher_submission fetcher
    = Some (CartLinesAddHooks.cartLinesAdd P S (Some lines) (Some optimisticLines)) →
  (∀ rest,
     CartLinesAdd.useCartLinesAddingFetcher P (fetcher :: rest) = Some fetcher)
  ∧ (CartLinesAdd.useCartLinesAddingFetcher P fetchers = Some fetcher →
     (CartLinesAddHooks.useCartLinesAdding P fetchers).1 = lines
     ∧ ∀ confirmed, ∃ new,
         CartLinesAdd.useOptimisticCartLinesAdding P diff fetchers confirmed
         = Returned (CartLinesAdd.mkOptimistic optimisticLines new))
  ∧ (∀ formData w,
       CartLinesAdd.submission_formData
         (CartLinesAddHooks.cartLinesAdd P S (Some lines) (Some optimisticLines))
         = Some formData →
       CartRoute.json_field (JSON_parse_lines P) [] "lines" formData w
         = (Returned lines, w)
       ∧ local_redirect P formData = None).
Proof.
  intros Hlines Htl Hopt Hto Hsub. rewrite cartLinesAdd_submission in *.
  split_and!.
  - intros rest. by eapply useCartLinesAddingFetcher_first.
  - intros Hfound. split.
    + unfold CartLinesAddHooks.useCartLinesAdding. rewrite Hfound.
      unfold mbind. cbn [fst option_bind]. rewrite Hsub.
      cbn [option_bind CartLinesAdd.submission_formData].
      rewrite FormData_get_cons_eq. by rewrite Htl, Hlines.
    + intros confirmed.
      unfold CartLinesAdd.useOptimisticCartLinesAdding, CartLinesAdd.optimisticLinesStr.
      rewrite Hfound. unfold mbind. cbn [option_bind]. rewrite Hsub.
      cbn [option_bind CartLinesAdd.submission_formData].
      rewrite FormData_get_cons_ne by done. rewrite FormData_get_cons_eq.
      rewrite Hto, Hopt.
      destruct (length optimisticLines =? 0)%nat; [by eexists|].
      destruct confirmed as [[|l ls]|]; by eexists.
  - intros formData w [= <-].
    split.
    + unfold CartRoute.json_field. rewrite FormData_get_cons_eq.
      cbn [truthy_entry String_]. rewrite Htl. unfold JSON_parse. by rewrite Hlines.
    + reflexivity.
Qed.

(** [CartLinesAddForm] renders nothing when its lines are empty or not an
    array.  The form it renders posts to the localized action path with the
    lines first among its inputs, so that, whatever [children] add to the
    form, the action reads those lines and fails neither on parsing them nor
    for want of lines; it carries a [redirectTo] exactly when the page is
    not hydrated.  [useCartLinesAdd] has no such guard: an empty array is
    submitted, and the action throws for want of lines. *)
Theorem CartLinesAddForm_submits_lines (P : Platform)
    (S : CartLinesAddHooks.Stringify) (diff : diff_t)
    (lines : option (list CartLineInput))
    (optimisticLines : option (list PartialCartLine))
    (isHydrated : bool) (pathname search : string) :
  (∀ ls, lines = Some ls ∨ ls = [] →
         JSON_parse_lines P (CartLinesAddHooks.JSON_stringify_lines S ls) = Some ls
         ∧ truthy (CartLinesAddHooks.JSON_stringify_lines S ls) = true) →
  (CartLinesAddHooks.CartLinesAddForm P S lines optimisticLines isHydrated
     pathname search = None ↔ lines = None ∨ lines = Some [])
  ∧ (∀ form,
       CartLinesAddHooks.CartLinesAddForm P S lines optimisticLines isHydrated
         pathname search = Some form →
       CartLinesAddHooks.form_action form
         = usePrefixPathWithLocale P CartLinesAdd.ACTION_PATH
       ∧ FormData_get "redirectTo" (CartLinesAddHooks.form_hidden form)
         = (if isHydrated then None
            else Some (FormString (usePrefixPathWithLocale P (pathname ++ search))))
       ∧ ∀ children context w,
           (CartLinesAdd.action P diff
              (mkRequest (CartLinesAddHooks.form_hidden form ++ children)%list)
              context w).1 ≠ Thrown (InvariantFailed "No lines to add")
           ∧ (CartLinesAdd.action P diff
                (mkRequest (CartLinesAddHooks.form_hidden form ++ children)%list)
                context w).1 ≠ Thrown SyntaxError)
  ∧ (∀ formData context w,
       CartLinesAdd.submission_formData
         (CartLinesAddHooks.cartLinesAdd P S (Some []) optimisticLines)
         = Some formData →
       CartLinesAdd.action P diff (mkRequest formData) context w
       = (Thrown (InvariantFailed "No lines to add"), w)).
Proof.
  intros Hjson. split_and!.
  - unfold CartLinesAddHooks.CartLinesAddForm.
    destruct lines as [[|l ls]|].
    + split; [by right | done].
    + split; [done | by intros [|]].
    + split; [by left | done].
  - intros form. unfold CartLinesAddHooks.CartLinesAddForm.
    destruct lines as [[|l ls]|]; [done| |done]. intros [= <-].
    cbn [CartLinesAddHooks.form_action CartLinesAddHooks.form_hidden].
    split_and!; [done| |].
    + cbn [app]. rewrite FormData_get_cons_ne by done.
      destruct optimisticLines as [ol|]; cbn [app].
      * rewrite FormData_get_cons_ne by done.
        destruct isHydrated; [done|]. by rewrite FormData_get_cons_eq.
      * destruct isHydrated; [done|]. by rewrite FormData_get_cons_eq.
    + intros children context w.
      destruct (Hjson (l :: ls)) as [Hparse Htruthy]; [by left|].
      run_action. cbn [app request_formData]. rewrite FormData_get_cons_eq.
      cbn [truthy_entry String_]. rewrite Htruthy, Hparse. run.
      cbn [length Nat.eqb negb]. run.
      split; repeat (case_match; run_all; simplify_eq); cbn [fst]; congruence.
  - intros formData context w.
    destruct (Hjson []) as [Hparse Htruthy]; [by right|].
    destruct optimisticLines as [ol|]; intros [= <-].
    all: run_action; cbn [CartLinesAddHooks.FormData_set String.eqb Ascii.eqb
                            Bool.eqb fst snd request_formData];
         rewrite FormData_get_cons_eq; cbn [truthy_entry String_];
         by rewrite Htruthy, Hparse.
Qed.

(** The lines [useCartLinesAdding] reports are parsed from the [lines]
    field of a fetcher among those given that submits to the localized
    action path: with no such fetcher, and with a field that does not parse,
    it reports none.  [useOptimisticCartLinesAdding] does not catch: an
    [optimisticLines] field that does not parse makes it throw. *)
Theorem hooks_read_the_submission (P : Platform) (diff : diff_t)
    (fetchers : list CartLinesAdd.Fetcher) :
  ((CartLinesAddHooks.useCartLinesAdding P fetchers).1 ≠ [] →
     ∃ fetcher submission formData str,
       fetcher ∈ fetchers
       ∧ CartLinesAdd.fetcher_submission fetcher = Some submission
       ∧ CartLinesAdd.submission_action submission
         = usePrefixPathWithLocale P CartLinesAdd.ACTION_PATH
       ∧ CartLinesAdd.submission_formData submission = Some formData
       ∧ FormData_get "lines" formData = Some (FormString str)
       ∧ JSON_parse_lines P str
         = Some (CartLinesAddHooks.useCartLinesAdding P fetchers).1)
  ∧ (∀ str lines,
       CartLinesAdd.optimisticLinesStr P fetchers = Some (FormString str) →
       truthy str = true →
       JSON_parse_cartLines P str = None →
       CartLinesAdd.useOptimisticCartLinesAdding P diff fetchers lines
       = Thrown SyntaxError).
Proof.
  split.
  - unfold CartLinesAddHooks.useCartLinesAdding, CartLinesAdd.useCartLinesAddingFetcher.
    cbn [fst]. unfold mbind.
    destruct (find _ fetchers) as [fetcher|] eqn:Hfind; cbn [option_bind]; [|done].
    apply find_some in Hfind as [Hin Haction].
    destruct (CartLinesAdd.fetcher_submission fetcher) as [submission|] eqn:Hsub;
      cbn [option_bind]; [|done].
    destruct (CartLinesAdd.submission_formData submission) as [formData|] eqn:Hfd;
      cbn [option_bind]; [|done].
    destruct (FormData_get "lines" formData) as [[str|name]|] eqn:Hget; [|done..].
    destruct (truthy str); [|done].
    destruct (JSON_parse_lines P str) as [parsed|] eqn:Hparse; [|done].
    intros _. exists fetcher, submission, formData, str.
    split_and!; try done.
    + by apply list_elem_of_In.
    + by apply String.eqb_eq.
  - intros str lines Hstr Htruthy Hparse.
    unfold CartLinesAdd.useOptimisticCartLinesAdding.
    by rewrite Hstr, Htruthy, Hparse.
Qed.

(** Whatever [useOptimisticCartLinesAdding] returns, its new optimistic
    lines are among the optimistic lines in flight, in their order, and hold
    every line in flight that no confirmed line matches: the lines without a
    merchandise id, and those whose merchandise id no confirmed line has. *)
Theorem optimisticLinesNew_sound (P : Platform) (diff : diff_t)
    (fetchers : list CartLinesAdd.Fetcher) (lines : option (list PartialCartLine))
    (result : CartLinesAdd.OptimisticLinesAddingReturnType) :
  LcsDiff diff →
  CartLinesAdd.useOptimisticCartLinesAdding P diff fetchers lines = Returned result →
  CartLinesAdd.optimisticLinesNew result
    `sublist_of` CartLinesAdd.optimisticLines result
  ∧ ∀ line,
      line ∈ CartLinesAdd.optimisticLines result →
      (∀ confirmed, confirmed ∈ default [] lines →
         partial_merchandise confirmed ≫= partial_merchandise_id
           ≠ partial_merchandise line ≫= partial_merchandise_id
         ∨ partial_merchandise line ≫= partial_merchandise_id = None) →
      line ∈ CartLinesAdd.optimisticLinesNew result.
Proof.
  intros Hdiff. unfold CartLinesAdd.useOptimisticCartLinesAdding.
  destruct (CartLinesAdd.optimisticLinesStr P fetchers) as [[str|name]|];
    [|intros [= <-]; split; [done | by intros line Hline%elem_of_nil]..].
  destruct (truthy str);
    [|intros [= <-]; split; [done | by intros line Hline%elem_of_nil]].
  destruct (JSON_parse_cartLines P str) as [inFlight|]; [|done].
  destruct inFlight as [|o os];
    [intros [= <-]; split; [done | by intros line Hline%elem_of_nil]|].
  cbn [length Nat.eqb].
  destruct lines as [[|l ls]|]; intros [= <-];
    cbn [CartLinesAdd.optimisticLinesNew CartLinesAdd.optimisticLines];
    [by split | | by split].
  destruct (Hdiff _ _ (l :: ls) (o :: os) CartLinesAdd.optimistic_comparer)
    as [Hs _].
  split.
  - by eapply Script_added_sublist.
  - intros line Hline Hno. eapply Script_adds_unmatched_elem; [done..|].
    intros confirmed Hc. destruct (CartLinesAdd.optimistic_comparer confirmed line) eqn:E;
      [|done].
    apply optimistic_comparer_spec in E as (m & Hcm & Hlm).
    destruct (Hno confirmed Hc) as [Hne|Hnone]; congruence.
Qed.

Lemma cartLinesAdd_round_trip_witness :
  (CartLinesAddHooks.useCartLinesAdding Examples.platform
     [CartLinesAdd.mkFetcher
        (Some (CartLinesAddHooks.cartLinesAdd Examples.platform Examples.stringify
                 (Some [Examples.requested Examples.variantX 1])
                 (Some [Examples.optimisticY])))
        None]).1
  = [Examples.requested Examples.variantX 1].
Proof.
  apply (proj1 (proj1 (proj2
           (cartLinesAdd_round_trip Examples.platform Examples.stringify diff
              [Examples.requested Examples.variantX 1] [Examples.optimisticY]
              [CartLinesAdd.mkFetcher
                 (Some (CartLinesAddHooks.cartLinesAdd Examples.platform
                          Examples.stringify
                          (Some [Examples.requested Examples.variantX 1])
                          (Some [Examples.optimisticY])))
                 None]
              (CartLinesAdd.mkFetcher
                 (Some (CartLinesAddHooks.cartLinesAdd Examples.platform
                          Examples.stringify
                          (Some [Examples.requested Examples.variantX 1])
                          (Some [Examples.optimisticY])))
                 None)
              eq_refl eq_refl eq_refl eq_refl eq_refl))
           eq_refl)).
Defined.

Lemma CartLinesAddForm_submits_lines_witness :
  CartLinesAdd.action Examples.platform diff
    (mkRequest [("lines", FormString "[]");
                ("optimisticLines", FormString Examples.optimistic_json)])
    (mkContext (Some Examples.accepting)) Examples.first_visit
  = (Thrown (InvariantFailed "No lines to add"), Examples.first_visit).
Proof.
  refine (proj2 (proj2
            (CartLinesAddForm_submits_lines Examples.platform Examples.stringify
               diff (Some [Examples.requested Examples.variantX 1])
               (Some [Examples.optimisticY]) false "/products/snowboard" "" _))
            _ _ _ eq_refl).
  intros ls [[= <-] | ->]; split; reflexivity.
Defined.

Lemma optimisticLinesNew_sound_witness :
  CartLinesAdd.optimisticLinesNew
    (CartLinesAdd.mkOptimistic [Examples.optimisticY] [Examples.optimisticY])
    `sublist_of`
  CartLinesAdd.optimisticLines
    (CartLinesAdd.mkOptimistic [Examples.optimisticY] [Examples.optimisticY]).
Proof.
  apply (proj1 (optimisticLinesNew_sound Examples.platform diff
                  [Examples.adding_fetcher] (Some [Examples.confirmedX])
                  (CartLinesAdd.mkOptimistic [Examples.optimisticY]
                     [Examples.optimisticY])
                  diff_LcsDiff ltac:(vm_compute; reflexivity))).
Defined.
